(** * pdfthis: the text-layout engine and request handler of [src/worker.js]

    A shallow embedding of the Cloudflare Worker that answers every request
    with a PDF.  JavaScript strings are sequences of UTF-16 code units, the
    PDF library (pdf-lib) is an external collaborator whose operations may
    throw, and the layout cursor [y] together with the page list is the
    mutable state the drawing helpers share. *)

From Stdlib Require Import Ascii String.
From Stdlib Require Import List Bool Arith ZArith NArith QArith Lia.
Import ListNotations.

Local Open Scope N_scope.

(* ================================================================== *)
(** * Part I: definitions                                              *)
(* ================================================================== *)

(** ** JavaScript strings *)

(** A JS string is a list of UTF-16 code units. *)
Definition jsstring : Type := list N.

(** A string literal of the source whose characters are all below U+0100. *)
Definition lit (s : string) : jsstring :=
  map N_of_ascii (list_ascii_of_string s).

(** Truthiness of a string: [if (s)] holds for the non-empty ones. *)
Definition truthy (s : jsstring) : bool :=
  match s with [] => false | _ :: _ => true end.

Fixpoint str_eqb (a b : jsstring) : bool :=
  match a, b with
  | [], [] => true
  | x :: a', y :: b' => (x =? y) && str_eqb a' b'
  | _, _ => false
  end.

(** [s.slice(0, n)] *)
Definition slice0 (n : nat) (s : jsstring) : jsstring := firstn n s.

(** The character class [[ -~]]. *)
Definition printable (c : N) : bool := (0x20 <=? c) && (c <=? 0x7E).

(** The regular-expression class [\s] of ECMAScript: white space and line
    terminators. *)
Definition isSpace (c : N) : bool :=
  (c =? 0x09) || (c =? 0x0A) || (c =? 0x0B) || (c =? 0x0C) || (c =? 0x0D)
  || (c =? 0x20) || (c =? 0xA0) || (c =? 0x1680)
  || ((0x2000 <=? c) && (c <=? 0x200A))
  || (c =? 0x2028) || (c =? 0x2029) || (c =? 0x202F) || (c =? 0x205F)
  || (c =? 0x3000) || (c =? 0xFEFF).

(** [s.split(/\s+/)]: the pieces between maximal runs of white space.  A
    run at either end leaves an empty piece there, and the empty string
    splits into one empty piece.  [inRun] tells that the previous code unit
    belonged to a run of white space. *)
Fixpoint splitRuns (inRun : bool) (s : jsstring) : list jsstring :=
  match s with
  | [] => [[]]
  | c :: rest =>
      if isSpace c then
        if inRun then splitRuns true rest else [] :: splitRuns true rest
      else
        match splitRuns false rest with
        | w :: ws => (c :: w) :: ws
        | [] => [[c]]
        end
  end.

Definition splitWhitespace (s : jsstring) : list jsstring := splitRuns false s.

Definition isHighSurrogate (c : N) : bool := (0xD800 <=? c) && (c <=? 0xDBFF).
Definition isLowSurrogate (c : N) : bool := (0xDC00 <=? c) && (c <=? 0xDFFF).

(** The string iterator behind [for (const ch of w)]: one piece per code
    point, a surrogate pair staying together. *)
Fixpoint codePoints (s : jsstring) : list jsstring :=
  match s with
  | [] => []
  | c :: rest =>
      match rest with
      | d :: rest' =>
          if isHighSurrogate c && isLowSurrogate d
          then [c; d] :: codePoints rest'
          else [c] :: codePoints rest
      | [] => [[c]]
      end
  end.

(** [s.replace(/[^ -~]/g, '?')], the glyph fallback of the drawing
    helpers. *)
Definition questionMark : N := 0x3F.

Definition asciiFallback (s : jsstring) : jsstring :=
  map (fun c => if printable c then c else questionMark) s.

(** ** processText *)

(** The table [arabicToLatin] of [processText]. *)
Definition arabicToLatin (c : N) : option jsstring :=
  match c with
  | 0x0627 => Some (lit "A")  | 0x0628 => Some (lit "B")
  | 0x062A => Some (lit "T")  | 0x062B => Some (lit "TH")
  | 0x062C => Some (lit "J")  | 0x062D => Some (lit "H")
  | 0x062E => Some (lit "KH") | 0x062F => Some (lit "D")
  | 0x0630 => Some (lit "DH") | 0x0631 => Some (lit "R")
  | 0x0632 => Some (lit "Z")  | 0x0633 => Some (lit "S")
  | 0x0634 => Some (lit "SH") | 0x0635 => Some (lit "S")
  | 0x0636 => Some (lit "D")  | 0x0637 => Some (lit "T")
  | 0x0638 => Some (lit "Z")  | 0x0639 => Some (lit "A")
  | 0x063A => Some (lit "GH") | 0x0641 => Some (lit "F")
  | 0x0642 => Some (lit "Q")  | 0x0643 => Some (lit "K")
  | 0x0644 => Some (lit "L")  | 0x0645 => Some (lit "M")
  | 0x0646 => Some (lit "N")  | 0x0629 => Some (lit "T")
  | 0x0640 => Some (lit "-")  | 0x0647 => Some (lit "H")
  | 0x0648 => Some (lit "W")  | 0x064A => Some (lit "Y")
  | 0x0649 => Some (lit "A")  | 0x0626 => Some (lit "A")
  | 0x0621 => Some (lit "A")  | 0x0625 => Some (lit "E")
  | _ => None
  end.

(** The replacement callback: [arabicToLatin[char] || '?']. *)
Definition transliterate (c : N) : jsstring :=
  match arabicToLatin c with
  | Some (x :: r) => x :: r
  | _ => [questionMark]
  end.

(** [processText]: the empty string is returned as it is; with Unicode
    support the text is kept; without it every code unit outside
    U+0020..U+007E is transliterated or becomes a question mark. *)
Definition processText (useUnicode : bool) (text : jsstring) : jsstring :=
  if negb (truthy text) then text
  else if useUnicode then text
  else flat_map (fun c => if printable c then [c] else transliterate c) text.

(** ** Fonts and text measurement *)

Inductive StandardFonts : Type := Helvetica | HelveticaBold.

(** An embedded font, as far as the worker uses it: its name and its
    [widthOfTextAtSize], which may throw ([None]). *)
Record Font : Type := mkFont {
  fontName : StandardFonts;
  widthOfTextAtSize : jsstring -> Z -> option Q
}.

(** [textWidth] of [wrapText]: the font's measure, and the estimate
    [t.length * size * 0.6] when the measure throws. *)
Definition textWidth (fnt : Font) (size : Z) (t : jsstring) : Q :=
  match widthOfTextAtSize fnt t size with
  | Some w => w
  | None => (inject_Z (Z.of_nat (length t) * size) * (6 # 10))%Q
  end.

(** The test [textWidth(t) <= maxWidth]. *)
Definition fits (fnt : Font) (size : Z) (maxWidth : Q) (t : jsstring) : bool :=
  Qle_bool (textWidth fnt size t) maxWidth.

(** ** wrapText *)

Definition space : jsstring := [0x20].

(** [if (s) lines.push(s)] *)
Definition pushIf (lines : list jsstring) (s : jsstring) : list jsstring :=
  if truthy s then lines ++ [s] else lines.

Section Wrap.
Variables (fnt : Font) (size : Z) (maxWidth : Q).

(** The inner loop, [for (const ch of w)]: the hard split of a token.  It
    returns the lines pushed so far and the last [chunk]. *)
Fixpoint hardSplit (chs : list jsstring) (lines : list jsstring)
         (chunk : jsstring) : list jsstring * jsstring :=
  match chs with
  | [] => (lines, chunk)
  | ch :: rest =>
      let attemptChunk := chunk ++ ch in
      if fits fnt size maxWidth attemptChunk
      then hardSplit rest lines attemptChunk
      else hardSplit rest (pushIf lines chunk) ch
  end.

(** The outer loop, [for (const w of words)], and the final push. *)
Fixpoint wrapWords (words : list jsstring) (lines : list jsstring)
         (current : jsstring) : list jsstring :=
  match words with
  | [] => pushIf lines current
  | w :: rest =>
      let attempt := if truthy current then current ++ space ++ w else w in
      if fits fnt size maxWidth attempt
      then wrapWords rest lines attempt
      else
        let '(lines', chunk) :=
          hardSplit (codePoints w) (pushIf lines current) [] in
        wrapWords rest lines' chunk
  end.
End Wrap.

Definition wrapText (useUnicode : bool) (text : jsstring) (maxWidth : Q)
           (fnt : Font) (size : Z) : list jsstring :=
  let processedText := processText useUnicode text in
  let words := splitWhitespace processedText in
  wrapWords fnt size maxWidth words [] [].

(** Words joined by single spaces. *)
Fixpoint joinSpace (ws : list jsstring) : jsstring :=
  match ws with
  | [] => []
  | [w] => w
  | w :: rest => w ++ space ++ joinSpace rest
  end.

(** The joins of the first one, two, ... words: what [wrapText] measures
    while a line grows. *)
Fixpoint wordPrefixes (ws : list jsstring) : list jsstring :=
  match ws with
  | [] => []
  | w :: rest => w :: map (fun p => w ++ space ++ p) (wordPrefixes rest)
  end.

(** A font in the manner of Courier: every glyph is 600/1000 em wide and
    every string can be measured. *)
Definition monoFont : Font :=
  mkFont Helvetica
         (fun t size =>
            Some (inject_Z (Z.of_nat (length t) * size) * (6 # 10))%Q).

(** A font whose measure always throws, so that the estimate is used. *)
Definition brokenFont : Font := mkFont Helvetica (fun _ _ => None).

(** A font whose measure is not monotone: a text with a space in it is
    measured narrower than a single word. *)
Definition kernedFont : Font :=
  mkFont Helvetica
         (fun t size => Some (if existsb isSpace t then 3 # 1 else 10 # 1)%Q).

Local Close Scope N_scope.
Local Open Scope Z_scope.

(** ** The PDF library *)

(** A thrown value, as the handler's [catch] sees it: its [message]
    property, when it has one, and what it converts to as a string. *)
Record JsError : Type := mkError {
  message : option jsstring;
  asString : jsstring
}.

Inductive Result (A : Type) : Type :=
| Ok (a : A)
| Throw (e : JsError).
Arguments Ok {A} a.
Arguments Throw {A} e.

(** The options of [page.drawText]; the colour is always black. *)
Record DrawOptions : Type := mkOptions {
  opt_x : Z;
  opt_y : Z;
  opt_size : Z;
  opt_font : Font
}.

(** What happened to the document and to the cursor, newest first in the
    state's [log]: a page was added, it was painted white, a text was drawn
    on the page with the given number, the cursor [y] was assigned. *)
Inductive Event : Type :=
| EvAddPage
| EvRectangle
| EvDrawText (page : nat) (text : jsstring) (opts : DrawOptions)
| EvCursor (v : Z).

(** The operations of pdf-lib the worker calls.  [None] is a normal return
    where the operation returns nothing the worker uses.  [addPage] is given
    the number of pages the document already has.  [page.getSize] and
    [page.drawRectangle] are taken to return normally, and so is the parsing
    of the request URL, which the runtime has parsed before. *)
Record PdfLib : Type := mkPdfLib {
  create : option JsError;
  addPage : nat -> option JsError;
  getSize : Z * Z;
  embedFont : StandardFonts -> Result Font;
  drawText : jsstring -> DrawOptions -> option JsError;
  save : list Event -> Result (list N)
}.

(** ** The layout state and its monad *)

Record LayoutState : Type := mkState {
  pageCount : nat;
  y : Z;
  log : list Event
}.

Definition M (A : Type) : Type := LayoutState -> Result A * LayoutState.

Definition ret {A : Type} (a : A) : M A := fun st => (Ok a, st).

Definition bind {A B : Type} (m : M A) (k : A -> M B) : M B :=
  fun st =>
    match m st with
    | (Ok a, st') => k a st'
    | (Throw e, st') => (Throw e, st')
    end.

Notation "x <- m ;; k" := (bind m (fun x => k))
  (at level 61, m at next level, right associativity).
Notation "m ;; k" := (bind m (fun _ => k))
  (at level 61, right associativity).

(** [try { m } catch (err) { h err }] *)
Definition tryCatch {A : Type} (m : M A) (h : JsError -> M A) : M A :=
  fun st =>
    match m st with
    | (Ok a, st') => (Ok a, st')
    | (Throw e, st') => h e st'
    end.

(** [for (const x of l) f x] and [l.forEach(f)] *)
Fixpoint forEach {A : Type} (f : A -> M unit) (l : list A) : M unit :=
  match l with
  | [] => ret tt
  | x :: rest => f x ;; forEach f rest
  end.

Definition margin : Z := 50.
Definition lineHeight : Z := 18.
Definition bodySize : Z := 12.
Definition titleSize : Z := 26.
Definition sectionHeaderSize : Z := 14.

Section Layout.
Variables (lib : PdfLib) (font fontBold : Font) (useUnicode : bool).

Definition width : Z := fst (getSize lib).
Definition height : Z := snd (getSize lib).

(** An assignment to the cursor. *)
Definition setY (v : Z) : M unit :=
  fun st => (Ok tt, mkState (pageCount st) v (EvCursor v :: log st)).

(** [y -= k] *)
Definition moveY (k : Z) : M unit := fun st => setY (y st - k) st.

Definition newPage : M unit :=
  fun st =>
    match addPage lib (pageCount st) with
    | Some e => (Throw e, st)
    | None =>
        setY (height - margin)
             (mkState (S (pageCount st)) (y st)
                      (EvRectangle :: EvAddPage :: log st))
    end.

Definition ensureSpace (needed : Z) : M unit :=
  fun st => if y st - needed <? margin then newPage st else (Ok tt, st).

(** [page.drawText(text, { x, y, size, font, color })] on the current
    page at the current cursor. *)
Definition pageDrawText (text : jsstring) (x size : Z) (fnt : Font) : M unit :=
  fun st =>
    let opts := mkOptions x (y st) size fnt in
    match drawText lib text opts with
    | Some e => (Throw e, st)
    | None =>
        (Ok tt, mkState (pageCount st) (y st)
                        (EvDrawText (pageCount st) text opts :: log st))
    end.

Definition maxTextWidth : Q := inject_Z (width - margin * 2).

(** The body of the loop of [drawWrapped]. *)
Definition drawLine (x size : Z) (fnt : Font) (line : jsstring) : M unit :=
  ensureSpace lineHeight ;;
  tryCatch (pageDrawText line x size fnt)
           (fun _ => pageDrawText (asciiFallback line) x size fnt) ;;
  moveY lineHeight.

Definition drawWrapped (text : jsstring) (x : Z) (maxWidth : Q) (size : Z)
           (fnt : Font) : M unit :=
  let lines := wrapText useUnicode text maxWidth fnt size in
  forEach (drawLine x size fnt) lines.

Definition drawTitle (text : jsstring) : M unit :=
  ensureSpace (lineHeight * 2) ;;
  tryCatch (pageDrawText (processText useUnicode text) margin titleSize fontBold)
           (fun _ =>
              let fallbackText := asciiFallback (processText useUnicode text) in
              pageDrawText fallbackText margin titleSize fontBold) ;;
  moveY (lineHeight * 2).

Definition drawSectionHeader (text : jsstring) : M unit :=
  ensureSpace (lineHeight * 2) ;;
  tryCatch (pageDrawText (processText useUnicode text) margin sectionHeaderSize fontBold)
           (fun _ =>
              let fallbackText := asciiFallback (processText useUnicode text) in
              pageDrawText fallbackText margin sectionHeaderSize fontBold) ;;
  moveY (lineHeight * 3 / 2).  (* [y -= lineHeight * 1.5], that is 27 *)

(** The handler's page is a straight sequence of calls to the three
    drawing helpers and of cursor decrements [y -= k]; every
    [drawWrapped] call of the handler passes [margin], [maxTextWidth] and
    the default size and font. *)
Inductive Call : Type :=
| DrawTitle (text : jsstring)
| DrawSectionHeader (text : jsstring)
| DrawWrapped (text : jsstring)
| MoveY (k : Z).

Definition exec (c : Call) : M unit :=
  match c with
  | DrawTitle text => drawTitle text
  | DrawSectionHeader text => drawSectionHeader text
  | DrawWrapped text => drawWrapped text margin maxTextWidth bodySize font
  | MoveY k => moveY k
  end.

Definition run (calls : list Call) : M unit := forEach exec calls.

(** The state after [let y = height - margin]: one page, painted white. *)
Definition initialState : LayoutState :=
  mkState 1 (height - margin)
          [EvCursor (height - margin); EvRectangle; EvAddPage].
End Layout.

(** ** The request and its parameters *)

(** What the handler reads of the request URL: [url.origin],
    [url.pathname] and [Array.from(url.searchParams.entries())], the query
    parameters in query order, repeated keys included. *)
Record Request : Type := mkRequest {
  origin : jsstring;
  pathname : jsstring;
  params : list (jsstring * jsstring)
}.

(** [url.searchParams.get(key)]: the value of the first entry with that
    key, [None] for [null]. *)
Fixpoint searchGet (key : jsstring) (ps : list (jsstring * jsstring))
  : option jsstring :=
  match ps with
  | [] => None
  | (k, v) :: rest => if str_eqb k key then Some v else searchGet key rest
  end.

(** [url.searchParams.has(key)] *)
Definition searchHas (key : jsstring) (ps : list (jsstring * jsstring)) : bool :=
  existsb (fun kv => str_eqb (fst kv) key) ps.

Definition MAX_PARAMS : nat := 50.
Definition MAX_VALUE_LEN : nat := 500.

(** [url.searchParams.get("title") || "PDF"] *)
Definition titleParam (ps : list (jsstring * jsstring)) : jsstring :=
  match searchGet (lit "title") ps with
  | Some v => if truthy v then v else lit "PDF"
  | None => lit "PDF"
  end.

Definition textParam (ps : list (jsstring * jsstring)) : option jsstring :=
  searchGet (lit "text") ps.

(** The filter [([k]) => k !== "title" && k !== "text"]. *)
Definition notReserved (kv : jsstring * jsstring) : bool :=
  negb (str_eqb (fst kv) (lit "title")) && negb (str_eqb (fst kv) (lit "text")).

Definition extraParams (ps : list (jsstring * jsstring))
  : list (jsstring * jsstring) :=
  firstn MAX_PARAMS (filter notReserved ps).

(** The condition of the note: [params.length - (has("title") ? 1 : 0) -
    (has("text") ? 1 : 0) > MAX_PARAMS]. *)
Definition noteCondition (ps : list (jsstring * jsstring)) : bool :=
  Z.of_nat MAX_PARAMS
  <? Z.of_nat (length ps)
     - (if searchHas (lit "title") ps then 1 else 0)
     - (if searchHas (lit "text") ps then 1 else 0).

Definition noteText : jsstring :=
  lit "Note: Showing first 50 parameters (excluding title/text).".

(** The line of one extra parameter: [`${key} = ${val}`], where [val] is
    the raw value cut by [slice(0, MAX_VALUE_LEN)]; an entry of
    [searchParams] always has a string as its value. *)
Definition paramLine (kv : jsstring * jsstring) : jsstring :=
  fst kv ++ lit " = " ++ slice0 MAX_VALUE_LEN (snd kv).

(** ** The two pages *)

(** [url.origin.replace(...)] with the pattern of a slash at the end of
    the string and the empty replacement: a final slash is dropped. *)
Fixpoint dropFinalSlash (s : jsstring) : jsstring :=
  match s with
  | [] => []
  | [c] => if N.eqb c 0x2F then [] else [c]
  | c :: rest => c :: dropFinalSlash rest
  end.

Definition exampleQuery : jsstring :=
  lit "?title=" ++ [0x645; 0x631; 0x62D; 0x628; 0x627]%N
  ++ lit "&text=This%20is%20Arabic:%20"
  ++ [0x627; 0x644; 0x633; 0x644; 0x627; 0x645]%N
  ++ lit "%20" ++ [0x639; 0x644; 0x64A; 0x643; 0x645]%N.

(** The instructions page, drawn when there is no parameter at all. *)
Definition instructionsCalls (useUnicode : bool) (req : Request) : list Call :=
  [ DrawTitle (lit "PDF Generator with Unicode Support");
    DrawSectionHeader (lit "Purpose");
    DrawWrapped
      (lit "This service provides a PDF file that can handle Unicode characters including Arabic text. "
       ++ lit "Text is customized using URL parameters.");
    MoveY lineHeight;
    DrawSectionHeader (lit "Use Cases");
    DrawWrapped (lit "- Generate PDFs with multilingual content");
    DrawWrapped (lit "- Support Arabic, Hebrew, and other RTL languages");
    DrawWrapped (lit "- Echo URL parameters as text with Unicode support");
    DrawWrapped (lit "- Test international character handling");
    MoveY lineHeight;
    DrawSectionHeader (lit "Example Usage");
    DrawWrapped (dropFinalSlash (origin req) ++ pathname req ++ exampleQuery);
    MoveY (lineHeight * 2);
    DrawSectionHeader (lit "Notes");
    DrawWrapped (lit "- Each value is limited to 500 characters.");
    DrawWrapped (lit "- Up to 50 URL parameters are rendered.");
    DrawWrapped
      (if useUnicode then lit "- Full Unicode support enabled"
       else lit "- Unicode characters are transliterated to Latin equivalents");
    DrawWrapped
      (lit "- RTL languages may not render in proper direction without additional setup");
    MoveY lineHeight;
    DrawSectionHeader (lit "Disclaimer");
    DrawWrapped
      (lit "This PDF file is for testing purposes. Content is rendered directly from URL parameters.")
  ].

(** [if (textParam) { drawWrapped(String(textParam).slice(0, 500)); y -= lineHeight }] *)
Definition textCalls (ps : list (jsstring * jsstring)) : list Call :=
  match textParam ps with
  | Some v =>
      if truthy v
      then [DrawWrapped (slice0 MAX_VALUE_LEN v); MoveY lineHeight]
      else []
  | None => []
  end.

(** The note of the section "Extra information". *)
Definition noteCalls (ps : list (jsstring * jsstring)) : list Call :=
  if noteCondition ps then [DrawWrapped noteText; MoveY lineHeight] else [].

(** [if (extraParams.length > 0) { ... }] *)
Definition extraCalls (ps : list (jsstring * jsstring)) : list Call :=
  match extraParams ps with
  | [] => []
  | extra =>
      [DrawSectionHeader (lit "Extra information")]
      ++ noteCalls ps
      ++ map (fun kv => DrawWrapped (paramLine kv)) extra
      ++ [MoveY lineHeight]
  end.

Definition disclaimerText (useUnicode : bool) : jsstring :=
  if useUnicode
  then lit "This PDF supports Unicode characters. Content is rendered from URL parameters."
  else lit "Unicode characters are transliterated. Content is rendered from URL parameters.".

(** The page that echoes the parameters. *)
Definition echoCalls (useUnicode : bool) (ps : list (jsstring * jsstring))
  : list Call :=
  [DrawTitle (titleParam ps)]
  ++ textCalls ps
  ++ extraCalls ps
  ++ [DrawSectionHeader (lit "Disclaimer");
      DrawWrapped (disclaimerText useUnicode)].

(** [if (params.length === 0) { ... } else { ... }] *)
Definition pageCalls (useUnicode : bool) (req : Request) : list Call :=
  match params req with
  | [] => instructionsCalls useUnicode req
  | ps => echoCalls useUnicode ps
  end.

(** ** The handler *)

Inductive Body : Type :=
| BodyText (s : jsstring)
| BodyBytes (bytes : list N).

(** The arguments of [new Response(body, init)]. *)
Record Response : Type := mkResponse {
  status : Z;
  headers : list (jsstring * jsstring);
  body : Body
}.

(** The font set-up.  Both branches embed the two standard fonts and leave
    [useUnicode] false; the [catch] branch runs when the [try] branch
    throws, and what it throws escapes. *)
Definition embedStandard (lib : PdfLib) : Result (Font * Font * bool) :=
  match embedFont lib Helvetica with
  | Throw e => Throw e
  | Ok font =>
      match embedFont lib HelveticaBold with
      | Throw e => Throw e
      | Ok fontBold => Ok (font, fontBold, false)
      end
  end.

Definition embedFonts (lib : PdfLib) : Result (Font * Font * bool) :=
  match embedStandard lib with
  | Ok r => Ok r
  | Throw _ => embedStandard lib
  end.

(** Everything the handler draws, from the first page to the last line. *)
Definition render (lib : PdfLib) (font fontBold : Font) (useUnicode : bool)
           (req : Request) : Result unit * LayoutState :=
  run lib font fontBold useUnicode (pageCalls useUnicode req) (initialState lib).

(** The body of the handler's [try]: the bytes of the document, or what
    was thrown. *)
Definition generate (lib : PdfLib) (req : Request) : Result (list N) :=
  match create lib with
  | Some e => Throw e
  | None =>
      match addPage lib 0 with
      | Some e => Throw e
      | None =>
          match embedFonts lib with
          | Throw e => Throw e
          | Ok (font, fontBold, useUnicode) =>
              match render lib font fontBold useUnicode req with
              | (Throw e, _) => Throw e
              | (Ok _, st) => save lib (rev (log st))
              end
          end
      end
  end.

(** [err?.message || err] inside the template literal. *)
Definition errorText (e : JsError) : jsstring :=
  match message e with
  | Some m => if truthy m then m else asString e
  | None => asString e
  end.

Definition pdfHeaders : list (jsstring * jsstring) :=
  [ (lit "Content-Type", lit "application/pdf");
    (lit "Content-Disposition",
     lit "inline; filename=" ++ [0x22%N] ++ lit "pdfthis.pdf" ++ [0x22%N]) ].

Definition fetch (lib : PdfLib) (req : Request) : Response :=
  match generate lib req with
  | Ok pdfBytes => mkResponse 200 pdfHeaders (BodyBytes pdfBytes)
  | Throw err =>
      mkResponse 500 [] (BodyText (lit "Failed to generate PDF: " ++ errorText err))
  end.

(** ** Reading the log *)

(** The text of a drawing event. *)
Definition eventText (ev : Event) : list jsstring :=
  match ev with EvDrawText _ text _ => [text] | _ => [] end.

(** The texts drawn, oldest first. *)
Definition drawnTexts (st : LayoutState) : list jsstring :=
  flat_map eventText (rev (log st)).

(** The values the cursor took, oldest first. *)
Definition cursorValues (st : LayoutState) : list Z :=
  flat_map (fun ev => match ev with EvCursor v => [v] | _ => [] end)
           (rev (log st)).

(** [advances st st']: the log of [st'] extends that of [st] and no page
    was lost. *)
Definition advances (st st' : LayoutState) : Prop :=
  (exists evs, log st' = evs ++ log st) /\ (pageCount st <= pageCount st')%nat.

(** What the layout keeps true of every event: the cursor is never set
    above the top margin, and a text is drawn no higher than the top margin
    and at least one line above the bottom margin. *)
Definition eventOk (lib : PdfLib) (ev : Event) : Prop :=
  match ev with
  | EvCursor v => v <= height lib - margin
  | EvDrawText _ _ opts =>
      margin + lineHeight <= opt_y opts <= height lib - margin
  | _ => True
  end.

Definition cursorInv (lib : PdfLib) (st : LayoutState) : Prop :=
  y st <= height lib - margin /\ Forall (eventOk lib) (log st).

(** A helper that reserves [needed] units, draws [text] once at the cursor
    with the given options, when that throws draws its glyph fallback
    instead, and moves the cursor down by [drop]: what it returns when the
    space check [ensureSpace] returned normally in state [st1]. *)
Definition drawsWithFallback (lib : PdfLib) (m : M unit) (needed drop : Z)
           (text : jsstring) (x size : Z) (fnt : Font) : Prop :=
  forall st st1,
    ensureSpace lib needed st = (Ok tt, st1) ->
    let opts := mkOptions x (y st1) size fnt in
    let drawn :=
      match drawText lib text opts with
      | None => text
      | Some _ => asciiFallback text
      end in
    m st = (Ok tt,
            mkState (pageCount st1) (y st1 - drop)
                    (EvCursor (y st1 - drop)
                     :: EvDrawText (pageCount st1) drawn opts :: log st1)).

(** The operations that build the document, as opposed to drawing a text:
    [e] was thrown by one of them. *)
Definition constructionFailure (lib : PdfLib) (e : JsError) : Prop :=
  create lib = Some e
  \/ (exists n, addPage lib n = Some e)
  \/ (exists name, embedFont lib name = Throw e)
  \/ (exists doc, save lib doc = Throw e).

(** The processed text has a word, so that [wrapText] has a line for it. *)
Definition hasWord (useUnicode : bool) (text : jsstring) : bool :=
  existsb truthy (splitWhitespace (processText useUnicode text)).

(** The cursor decrements of a page are spaced out when each of them
    follows a drawn text, with no other decrement in between, and is of two
    line heights at most.  [fresh] tells that a text was drawn since the last
    decrement. *)
Fixpoint spaced (useUnicode : bool) (fresh : bool) (calls : list Call) : bool :=
  match calls with
  | [] => true
  | DrawTitle _ :: rest => spaced useUnicode true rest
  | DrawSectionHeader _ :: rest => spaced useUnicode true rest
  | DrawWrapped text :: rest =>
      spaced useUnicode (fresh || hasWord useUnicode text) rest
  | MoveY k :: rest =>
      fresh && (0 <=? k) && (k <=? lineHeight * 2) && spaced useUnicode false rest
  end.

(** The lower bounds of the cursor: it was never set lower than two line
    heights below the bottom margin, and it is at the bottom margin or above
    when a text was just drawn. *)
Definition cursorLow (ev : Event) : Prop :=
  match ev with
  | EvCursor v => margin - lineHeight * 2 <= v
  | _ => True
  end.

Definition lowInv (fresh : bool) (st : LayoutState) : Prop :=
  margin - lineHeight * 2 <= y st
  /\ (fresh = true -> margin <= y st)
  /\ Forall cursorLow (log st).

(** A call that moves the cursor moves it down. *)
Definition movesDown (c : Call) : Prop :=
  match c with MoveY k => 0 <= k | _ => True end.

(** ** Sample collaborators and requests *)

Definition encodingError : JsError :=
  mkError (Some (lit "WinAnsi cannot encode the text"))
          (lit "Error: WinAnsi cannot encode the text").

(** pdf-lib as the worker meets it: Letter pages, standard fonts that
    measure every text, [drawText] throwing on a character outside
    U+0020..U+007E, and nothing else failing. *)
Definition stdLib : PdfLib :=
  mkPdfLib None
           (fun _ => None)
           (612, 792)
           (fun name => Ok (mkFont name (widthOfTextAtSize monoFont)))
           (fun text _ => if forallb printable text then None else Some encodingError)
           (fun _ => Ok (lit "%PDF-1.7")).

Definition stdFont : Font := mkFont Helvetica (widthOfTextAtSize monoFont).
Definition stdFontBold : Font := mkFont HelveticaBold (widthOfTextAtSize monoFont).

(** A font of very wide glyphs, 300 units each at any size, so that a
    line of the page holds one character; and the library that embeds it. *)
Definition wideFont : Font :=
  mkFont Helvetica (fun t _ => Some (inject_Z (Z.of_nat (length t) * 300))).

Definition wideLib : PdfLib :=
  mkPdfLib None (addPage stdLib) (getSize stdLib) (fun _ => Ok wideFont)
           (drawText stdLib) (save stdLib).

(** [?text=xx...x] with forty letters. *)
Definition paramsForty : list (jsstring * jsstring) :=
  [(lit "text", repeat 0x78%N 40)].

(** A library whose [PDFDocument.create] throws the given value. *)
Definition failingLib (e : JsError) : PdfLib :=
  mkPdfLib (Some e) (addPage stdLib) (getSize stdLib) (embedFont stdLib)
           (drawText stdLib) (save stdLib).

(** [new Error()] without a message. *)
Definition emptyError : JsError := mkError (Some []) (lit "Error").

Definition requestOf (ps : list (jsstring * jsstring)) : Request :=
  mkRequest (lit "https://pdfthis.example") (lit "/") ps.

(** [?k=1&k=1&...], thirty-four times. *)
Definition params34 : list (jsstring * jsstring) :=
  repeat (lit "k", lit "1") 34.

(** [?title=a&title=b&k=1&...&k=1] with fifty entries [k=1]. *)
Definition paramsTwoTitles : list (jsstring * jsstring) :=
  (lit "title", lit "a") :: (lit "title", lit "b") :: repeat (lit "k", lit "1") 50.

(** [?a=1&a=2] *)
Definition paramsRepeated : list (jsstring * jsstring) :=
  [(lit "a", lit "1"); (lit "a", lit "2")].

(** The title of the worker's own example query, U+0645 U+0631 U+062D
    U+0628 U+0627. *)
Definition arabicTitle : jsstring := [0x645; 0x631; 0x62D; 0x628; 0x627]%N.

(** A value of 501 letters x. *)
Definition longValue : jsstring := repeat 0x78%N 501.

(** ** Further vocabulary *)

(** A code unit that [split(/\s+/)] keeps. *)
Definition nonSpace (c : N) : bool := negb (isSpace c).

(** A line as [drawText] received it: the line itself or its glyph
    fallback. *)
Definition drawnAs (line drawn : jsstring) : Prop :=
  drawn = line \/ drawn = asciiFallback line.

(** The page and the height of every text drawn, newest first. *)
Definition drawPositions (evs : list Event) : list (nat * Z) :=
  flat_map (fun ev => match ev with
                      | EvDrawText page _ opts => [(page, opt_y opts)]
                      | _ => []
                      end) evs.

(** The newest text, if any, is on an earlier page than [page], or on
    [page] at least one line height above [v]. *)
Definition headAbove (page : nat) (v : Z) (l : list (nat * Z)) : Prop :=
  match l with
  | [] => True
  | d :: _ => (fst d < page)%nat \/ (fst d = page /\ v + lineHeight <= snd d)
  end.

(** Every text is on a later page than the text drawn before it, or on
    the same page at least one line height below it. *)
Fixpoint stacked (l : list (nat * Z)) : Prop :=
  match l with
  | [] => True
  | d :: rest => headAbove (fst d) (snd d) rest /\ stacked rest
  end.

Definition stackInv (st : LayoutState) : Prop :=
  headAbove (pageCount st) (y st) (drawPositions (log st))
  /\ stacked (drawPositions (log st)).

(** The number of pages added to the document. *)
Definition addedPages (evs : list Event) : nat :=
  length (filter (fun ev => match ev with EvAddPage => true | _ => false end) evs).

(** In a log, newest first: every added page was painted white at once. *)
Fixpoint painted (evs : list Event) : Prop :=
  match evs with
  | [] => True
  | EvAddPage :: _ => False
  | EvRectangle :: EvAddPage :: rest => painted rest
  | _ :: rest => painted rest
  end.

(** Every text drawn is on a page of the document. *)
Definition onPages (pages : nat) (ev : Event) : Prop :=
  match ev with
  | EvDrawText page _ _ => (1 <= page <= pages)%nat
  | _ => True
  end.

Definition pageInv (st : LayoutState) : Prop :=
  pageCount st = addedPages (log st)
  /\ painted (log st)
  /\ Forall (onPages (pageCount st)) (log st).

(** Every text drawn is printable ASCII. *)
Definition asciiEvent (ev : Event) : Prop :=
  match ev with
  | EvDrawText _ text _ => forallb printable text = true
  | _ => True
  end.

(** A string that does not begin with white space. *)
Definition startsWithWord (s : jsstring) : Prop :=
  match s with
  | [] => True
  | c :: _ => isSpace c = false
  end.

(** [?title=a&k=1&...&k=1] with fifty-one entries [k=1]. *)
Definition paramsFiftyOne : list (jsstring * jsstring) :=
  (lit "title", lit "a") :: repeat (lit "k", lit "1") 51.

(** The texts a call of the page draws when nothing fails, Unicode
    support being off: the processed title or header, or the lines of
    [wrapText]. *)
Definition callTexts (lib : PdfLib) (font : Font) (c : Call) : list jsstring :=
  match c with
  | DrawTitle text => [processText false text]
  | DrawSectionHeader text => [processText false text]
  | DrawWrapped text => wrapText false text (maxTextWidth lib) font bodySize
  | MoveY _ => []
  end.

(** The sentence under the header "Disclaimer": the one of the
    instructions page, or of the page that echoes the parameters. *)
Definition pageDisclaimer (useUnicode : bool) (req : Request) : jsstring :=
  match params req with
  | [] =>
      lit "This PDF file is for testing purposes. Content is rendered directly from URL parameters."
  | _ => disclaimerText useUnicode
  end.

(** A code point as the string iterator yields it: one code unit, or a
    high surrogate followed by a low one. *)
Definition singleCharacter (s : jsstring) : Prop :=
  (exists c, s = [c])
  \/ (exists c d,
        s = [c; d] /\ isHighSurrogate c = true /\ isLowSurrogate d = true).

(** [?title=A&a=1&title=B&text=one&a=2&text=two] *)
Definition paramsMixed : list (jsstring * jsstring) :=
  [ (lit "title", lit "A"); (lit "a", lit "1"); (lit "title", lit "B");
    (lit "text", lit "one"); (lit "a", lit "2"); (lit "text", lit "two") ].

(* ================================================================== *)
(** * Part II: properties                                              *)
(* ================================================================== *)

(** ** Strings *)

Lemma str_eqb_eq (a b : jsstring) : str_eqb a b = true <-> a = b.
Proof.
  revert b; induction a as [|x a IH]; intros [|y b]; simpl;
    try (split; [discriminate | congruence]); try tauto.
  rewrite andb_true_iff, N.eqb_eq, IH.
  split; [intros [-> ->]; reflexivity | intros H; inversion H; auto].
Qed.

Lemma truthy_app_l (a b : jsstring) : truthy a = true -> truthy (a ++ b) = true.
Proof. destruct a; simpl; [discriminate | reflexivity]. Qed.

Lemma fits_le (fnt : Font) (size : Z) (maxWidth : Q) (t : jsstring) :
  fits fnt size maxWidth t = true <-> (textWidth fnt size t <= maxWidth)%Q.
Proof. unfold fits; apply Qle_bool_iff. Qed.

(** When the font cannot measure, the width is estimated at 0.6 em per
    code unit. *)
Example textWidth_estimate :
  (textWidth brokenFont 12 (lit "abcde") == 36 # 1)%Q.
Proof. reflexivity. Qed.

Example wordPrefixes_three :
  wordPrefixes [lit "a"; lit "b"; lit "c"] = [lit "a"; lit "a b"; lit "a b c"].
Proof. reflexivity. Qed.

(** ** wrapText: which lines are emitted *)

Section WrapLines.
Variables (fnt : Font) (size : Z) (maxWidth : Q).
(** [P] is any property that every string passing the width test has. *)
Variable P : jsstring -> Prop.
Hypothesis P_fits : forall t, fits fnt size maxWidth t = true -> P t.

Lemma pushIf_Forall (lines : list jsstring) (s : jsstring) :
  Forall P lines -> (truthy s = true -> P s) -> Forall P (pushIf lines s).
Proof.
  intros Hl Hs; unfold pushIf; destruct (truthy s); auto.
  apply Forall_app; split; auto.
Qed.

Lemma hardSplit_Forall (chs : list jsstring) :
  forall lines chunk,
    Forall P chs -> Forall P lines -> (truthy chunk = true -> P chunk) ->
    Forall P (fst (hardSplit fnt size maxWidth chs lines chunk))
    /\ (truthy (snd (hardSplit fnt size maxWidth chs lines chunk)) = true ->
        P (snd (hardSplit fnt size maxWidth chs lines chunk))).
Proof.
  induction chs as [|ch rest IH]; intros lines chunk Hchs Hl Hc; simpl.
  - split; assumption.
  - inversion Hchs as [|? ? Hch Hrest]; subst.
    destruct (fits fnt size maxWidth (chunk ++ ch)) eqn:Hfit.
    + apply IH; auto.
    + apply IH; auto using pushIf_Forall.
Qed.

Lemma wrapWords_cons (w : jsstring) (rest lines : list jsstring)
      (current : jsstring) :
  wrapWords fnt size maxWidth (w :: rest) lines current
  = if fits fnt size maxWidth
            (if truthy current then current ++ space ++ w else w)
    then wrapWords fnt size maxWidth rest lines
                   (if truthy current then current ++ space ++ w else w)
    else wrapWords fnt size maxWidth rest
           (fst (hardSplit fnt size maxWidth (codePoints w)
                           (pushIf lines current) []))
           (snd (hardSplit fnt size maxWidth (codePoints w)
                           (pushIf lines current) [])).
Proof.
  cbn [wrapWords].
  destruct (fits fnt size maxWidth _); [reflexivity |].
  destruct (hardSplit fnt size maxWidth (codePoints w) _ []); reflexivity.
Qed.

Lemma wrapWords_Forall (words : list jsstring) :
  forall lines current,
    (forall w, In w words -> Forall P (codePoints w)) ->
    Forall P lines -> (truthy current = true -> P current) ->
    Forall P (wrapWords fnt size maxWidth words lines current).
Proof.
  induction words as [|w rest IH]; intros lines current Hw Hl Hc.
  - apply pushIf_Forall; assumption.
  - rewrite wrapWords_cons.
    assert (Hrest : forall w', In w' rest -> Forall P (codePoints w'))
      by (intros w' Hin; apply Hw; right; exact Hin).
    destruct (fits fnt size maxWidth _) eqn:Hfit.
    + apply IH; auto.
    + destruct (hardSplit_Forall (codePoints w) (pushIf lines current) [])
        as [H1 H2].
      * apply Hw; left; reflexivity.
      * apply pushIf_Forall; assumption.
      * discriminate.
      * apply IH; auto.
Qed.
End WrapLines.

(** Every line of [wrapText] passed the width test or is one code point of
    a word. *)
Lemma wrapText_line_cases (useUnicode : bool) (text : jsstring) (maxWidth : Q)
      (fnt : Font) (size : Z) (line : jsstring) :
  In line (wrapText useUnicode text maxWidth fnt size) ->
  fits fnt size maxWidth line = true
  \/ exists w, In w (splitWhitespace (processText useUnicode text))
               /\ In line (codePoints w).
Proof.
  intros Hin.
  set (words := splitWhitespace (processText useUnicode text)).
  assert (H : forall ws, incl ws words ->
            forall lines current,
              Forall (fun l => fits fnt size maxWidth l = true
                               \/ exists w, In w words /\ In l (codePoints w)) lines ->
              (truthy current = true ->
               fits fnt size maxWidth current = true
               \/ exists w, In w words /\ In current (codePoints w)) ->
              Forall (fun l => fits fnt size maxWidth l = true
                               \/ exists w, In w words /\ In l (codePoints w))
                     (wrapWords fnt size maxWidth ws lines current)).
  { intros ws Hincl lines current Hl Hc.
    apply wrapWords_Forall; auto.
    intros w Hw; apply Forall_forall; intros ch Hch.
    right; exists w; split; auto. }
  specialize (H words (incl_refl _) [] [] (Forall_nil _)).
  rewrite Forall_forall in H; apply H; [discriminate | exact Hin].
Qed.

(** C1, amended: when every single character of every word of the
    processed text measures at most the maximum width, every line emitted
    by [wrapText] measures at most the maximum width, the lines of a hard
    split included. *)
Theorem wrapText_lines_fit (useUnicode : bool) (text : jsstring) (maxWidth : Q)
        (fnt : Font) (size : Z) :
  (forall w ch,
      In w (splitWhitespace (processText useUnicode text)) ->
      In ch (codePoints w) ->
      (textWidth fnt size ch <= maxWidth)%Q) ->
  forall line,
    In line (wrapText useUnicode text maxWidth fnt size) ->
    (textWidth fnt size line <= maxWidth)%Q.
Proof.
  intros Hch line Hin.
  destruct (wrapText_line_cases _ _ _ _ _ _ Hin) as [Hfit | [w [Hw Hcp]]].
  - apply fits_le; exact Hfit.
  - exact (Hch w line Hw Hcp).
Qed.

(** At width 80 the text "hello wonderful world" is wrapped into lines of
    at most 80 units each. *)
Lemma wrapText_lines_fit_witness :
  wrapText false (lit "hello wonderful world") (80 # 1) monoFont 12
  = [lit "hello"; lit "wonderful"; lit "world"]
  /\ forall line,
      In line (wrapText false (lit "hello wonderful world") (80 # 1) monoFont 12) ->
      (textWidth monoFont 12 line <= 80 # 1)%Q.
Proof.
  split; [reflexivity |].
  apply (wrapText_lines_fit false (lit "hello wonderful world") (80 # 1) monoFont 12).
  intros w ch Hw Hch.
  vm_compute in Hw.
  repeat (destruct Hw as [Hw | Hw]; [subst w; vm_compute in Hch;
    repeat (destruct Hch as [Hch | Hch]; [subst ch; vm_compute; discriminate |]);
    contradiction |]).
  contradiction.
Defined.

(** C1 as stated fails: at maximum width 5 the one-letter text "W" is
    emitted as a line although it measures 7.2. *)
Lemma wrapText_wide_char_counterexample :
  wrapText false (lit "W") (5 # 1) monoFont 12 = [lit "W"]
  /\ ~ (textWidth monoFont 12 (lit "W") <= 5 # 1)%Q.
Proof.
  split; [reflexivity | vm_compute; intros H; apply H; reflexivity].
Qed.

(** ** wrapText: a text that fits *)

Section WrapShort.
Variables (fnt : Font) (size : Z) (maxWidth : Q).

Lemma joinSpace_cons2 (a b : jsstring) (rest : list jsstring) :
  joinSpace (a :: b :: rest) = a ++ space ++ joinSpace (b :: rest).
Proof. reflexivity. Qed.

Lemma joinSpace_absorb (cur w : jsstring) (rest : list jsstring) :
  joinSpace ((cur ++ space ++ w) :: rest) = joinSpace (cur :: w :: rest).
Proof.
  destruct rest as [|x rest].
  - reflexivity.
  - rewrite !joinSpace_cons2, <- !app_assoc; reflexivity.
Qed.

(** While every attempt passes the width test the loop only grows
    [current], and the final push emits it. *)
Lemma wrapWords_all_fit (rest : list jsstring) :
  forall lines current,
    truthy current = true ->
    Forall (fun t => fits fnt size maxWidth t = true)
           (map (fun p => current ++ space ++ p) (wordPrefixes rest)) ->
    wrapWords fnt size maxWidth rest lines current
    = lines ++ [joinSpace (current :: rest)].
Proof.
  induction rest as [|w rest IH]; intros lines current Hcur Hfit.
  - cbn [wrapWords joinSpace]; unfold pushIf; rewrite Hcur; reflexivity.
  - rewrite wrapWords_cons, Hcur.
    cbn [wordPrefixes map] in Hfit.
    apply Forall_cons_iff in Hfit as [Hhd Htl].
    rewrite Hhd, IH.
    + rewrite joinSpace_absorb; reflexivity.
    + apply truthy_app_l; exact Hcur.
    + rewrite map_map in Htl.
      erewrite map_ext; [exact Htl |].
      intros p; cbv beta; rewrite <- !app_assoc; reflexivity.
Qed.
End WrapShort.

(** C4, amended: when the processed text starts with a word, has single
    spaces as its only white space (it is its words joined by single
    spaces) and measures at most the maximum width at each of its word
    boundaries, [wrapText] returns exactly one line, the processed text. *)
Theorem wrapText_short_single_line (useUnicode : bool) (text : jsstring)
        (maxWidth : Q) (fnt : Font) (size : Z) :
  truthy (hd [] (splitWhitespace (processText useUnicode text))) = true ->
  joinSpace (splitWhitespace (processText useUnicode text))
  = processText useUnicode text ->
  Forall (fun t => (textWidth fnt size t <= maxWidth)%Q)
         (wordPrefixes (splitWhitespace (processText useUnicode text))) ->
  wrapText useUnicode text maxWidth fnt size = [processText useUnicode text].
Proof.
  unfold wrapText.
  destruct (splitWhitespace (processText useUnicode text)) as [|w rest] eqn:Hsplit;
    [discriminate |].
  cbn [hd]; intros Hw Hjoin Hfit.
  cbn [wordPrefixes] in Hfit.
  apply Forall_cons_iff in Hfit as [Hhd Htl].
  rewrite wrapWords_cons; cbn [truthy].
  apply fits_le in Hhd; rewrite Hhd.
  rewrite wrapWords_all_fit; [rewrite Hjoin; reflexivity | exact Hw |].
  rewrite Forall_forall in *; intros t Ht; apply fits_le; auto.
Qed.

(** The text "hello world" fits in 512 units and comes back as one line. *)
Lemma wrapText_short_single_line_witness :
  wrapText false (lit "hello world") (512 # 1) monoFont 12 = [lit "hello world"].
Proof.
  apply (wrapText_short_single_line false (lit "hello world") (512 # 1) monoFont 12).
  - reflexivity.
  - reflexivity.
  - vm_compute; repeat constructor; discriminate.
Defined.

(** C4 as stated fails: the empty text fits and gives no line at all; the
    text "a  b" fits and comes back with one space; and under a measure
    that is not monotone the text "aa b" fits and is split all the same. *)
Lemma wrapText_short_counterexample :
  ((textWidth monoFont 12 [] <= 512 # 1)%Q
   /\ wrapText false [] (512 # 1) monoFont 12 = [])
  /\ ((textWidth monoFont 12 (lit "a  b") <= 512 # 1)%Q
      /\ wrapText false (lit "a  b") (512 # 1) monoFont 12 = [lit "a b"])
  /\ ((textWidth kernedFont 12 (lit "aa b") <= 5 # 1)%Q
      /\ wrapText false (lit "aa b") (5 # 1) kernedFont 12 = [lit "a"; lit "a b"]).
Proof.
  split; [split; [vm_compute; discriminate | reflexivity] |].
  split; [split; [vm_compute; discriminate | reflexivity] |].
  split; [vm_compute; discriminate | reflexivity].
Qed.

(** ** processText and the glyph fallback *)

Lemma transliterate_printable (c : N) : forallb printable (transliterate c) = true.
Proof.
  unfold transliterate.
  destruct (arabicToLatin c) as [[|x r]|] eqn:H; try reflexivity.
  unfold arabicToLatin in H.
  repeat match type of H with
         | match ?p with _ => _ end = _ => destruct p
         end; try discriminate; inversion H; reflexivity.
Qed.

(** Without Unicode support [processText] leaves printable ASCII only. *)
Lemma processText_printable (text : jsstring) :
  forallb printable (processText false text) = true.
Proof.
  unfold processText.
  destruct (truthy text) eqn:Ht; cbn [negb].
  - induction text as [|c rest IH]; [reflexivity |].
    cbn [flat_map]; rewrite forallb_app.
    assert (Hrest : forallb printable
              (flat_map (fun c => if printable c then [c] else transliterate c) rest)
            = true).
    { destruct rest; [reflexivity | apply IH; reflexivity]. }
    rewrite Hrest, andb_true_r.
    destruct (printable c) eqn:Hc; [cbn; rewrite Hc; reflexivity |].
    apply transliterate_printable.
  - destruct text; [reflexivity | discriminate].
Qed.

Lemma asciiFallback_printable (s : jsstring) :
  forallb printable (asciiFallback s) = true.
Proof.
  induction s as [|c s IH]; [reflexivity |].
  cbn [asciiFallback map forallb]; fold (asciiFallback s); rewrite IH, andb_true_r.
  destruct (printable c) eqn:Hc; [exact Hc | reflexivity].
Qed.

Lemma asciiFallback_id (s : jsstring) :
  forallb printable s = true -> asciiFallback s = s.
Proof.
  induction s as [|c s IH]; [reflexivity |].
  cbn [forallb asciiFallback map]; fold (asciiFallback s).
  intros H; apply andb_true_iff in H as [Hc Hs].
  rewrite Hc, IH; auto.
Qed.

(** A printable text is its own processed form. *)
Lemma processText_id (useUnicode : bool) (s : jsstring) :
  forallb printable s = true -> processText useUnicode s = s.
Proof.
  intros H; unfold processText.
  destruct (truthy s); cbn [negb]; [|reflexivity].
  destruct useUnicode; [reflexivity |].
  induction s as [|c s IH]; [reflexivity |].
  cbn [forallb] in H; apply andb_true_iff in H as [Hc Hs].
  cbn [flat_map]; rewrite Hc, IH; auto.
Qed.

(** ** The layout helpers *)

Ltac break_match :=
  match goal with
  | |- context [if ?b then _ else _] => destruct b eqn:?
  | |- context [match ?x with Some _ => _ | None => _ end] => destruct x eqn:?
  end.

Ltac unfold_layout :=
  unfold drawTitle, drawSectionHeader, drawLine, bind, tryCatch, ensureSpace,
    newPage, moveY, setY, pageDrawText, ret.

Lemma log_extends_nil (l : list Event) : exists evs, l = evs ++ l.
Proof. exists []; reflexivity. Qed.

Lemma log_extends_cons (e : Event) (l' l : list Event) :
  (exists evs, l' = evs ++ l) -> exists evs, e :: l' = evs ++ l.
Proof. intros [evs ->]; exists (e :: evs); reflexivity. Qed.

Ltac log_extends := repeat apply log_extends_cons; apply log_extends_nil.

Lemma advances_refl (st : LayoutState) : advances st st.
Proof. split; [apply log_extends_nil | lia]. Qed.

Lemma advances_trans (a b c : LayoutState) :
  advances a b -> advances b c -> advances a c.
Proof.
  intros [[e1 H1] L1] [[e2 H2] L2]; split; [|lia].
  exists (e2 ++ e1); rewrite H2, H1, app_assoc; reflexivity.
Qed.

Lemma advances_drawnTexts (a b : LayoutState) :
  advances a b -> exists more, drawnTexts b = drawnTexts a ++ more.
Proof.
  intros [[evs H] _]; unfold drawnTexts; rewrite H, rev_app_distr, flat_map_app.
  eexists; reflexivity.
Qed.

Section LayoutFacts.
Variables (lib : PdfLib) (font fontBold : Font) (useUnicode : bool).

(** *** Sequencing *)

Lemma forEach_app {A : Type} (f : A -> M unit) (l1 l2 : list A) (st : LayoutState) :
  forEach f (l1 ++ l2) st = (forEach f l1 ;; forEach f l2) st.
Proof.
  revert st; induction l1 as [|a l1 IH]; intros st; [reflexivity |].
  cbn [app forEach]; unfold bind.
  destruct (f a st) as [[[]|e] st1]; [|reflexivity].
  rewrite IH; reflexivity.
Qed.

Lemma forEach_advances {A : Type} (f : A -> M unit) :
  (forall a st, advances st (snd (f a st))) ->
  forall l st, advances st (snd (forEach f l st)).
Proof.
  intros Hf l; induction l as [|a l IH]; intros st.
  - apply advances_refl.
  - cbn [forEach]; unfold bind.
    specialize (Hf a st).
    destruct (f a st) as [[[]|e] st1]; cbn [snd] in *; [|exact Hf].
    eapply advances_trans; [exact Hf | apply IH].
Qed.

Lemma forEach_preserves {A : Type} (I : LayoutState -> Prop) (f : A -> M unit)
      (l : list A) :
  (forall a st, In a l -> I st -> I (snd (f a st))) ->
  forall st, I st -> I (snd (forEach f l st)).
Proof.
  induction l as [|a l IH]; intros Hf st Hst; [exact Hst |].
  cbn [forEach]; unfold bind.
  pose proof (Hf a st (or_introl eq_refl) Hst) as H1.
  destruct (f a st) as [[[]|e] st1]; cbn [snd] in *; [|exact H1].
  apply IH; [intros; apply Hf; [right|]; assumption | exact H1].
Qed.

(** *** The log only grows *)

Lemma drawLine_advances x size fnt line st :
  advances st (snd (drawLine lib x size fnt line st)).
Proof.
  unfold_layout; repeat break_match; cbn; split; cbn; try lia; log_extends.
Qed.

Lemma drawTitle_advances text st :
  advances st (snd (drawTitle lib fontBold useUnicode text st)).
Proof.
  unfold_layout; repeat break_match; cbn; split; cbn; try lia; log_extends.
Qed.

Lemma drawSectionHeader_advances text st :
  advances st (snd (drawSectionHeader lib fontBold useUnicode text st)).
Proof.
  unfold_layout; repeat break_match; cbn; split; cbn; try lia; log_extends.
Qed.

Lemma exec_advances c st :
  advances st (snd (exec lib font fontBold useUnicode c st)).
Proof.
  destruct c as [text | text | text | k]; cbn [exec].
  - apply drawTitle_advances.
  - apply drawSectionHeader_advances.
  - unfold drawWrapped; apply forEach_advances; intros; apply drawLine_advances.
  - unfold_layout; cbn; split; cbn; try lia; log_extends.
Qed.

Lemma run_advances calls st :
  advances st (snd (run lib font fontBold useUnicode calls st)).
Proof. unfold run; apply forEach_advances; intros; apply exec_advances. Qed.

(** *** The cursor invariant *)

Hypothesis page_size : margin * 2 + lineHeight * 2 <= height lib.

Ltac inv_goal :=
  unfold cursorInv in *; cbn [y log] in *;
  repeat match goal with
         | H : _ /\ _ |- _ => destruct H
         | H : (_ <? _) = true |- _ => apply Z.ltb_lt in H
         | H : (_ <? _) = false |- _ => apply Z.ltb_ge in H
         end;
  repeat first [ apply Forall_cons | apply Forall_nil | assumption | split ];
  cbn [eventOk opt_y]; try exact I;
  try change (lineHeight * 3 / 2) with 27;
  unfold margin, lineHeight in *; try lia.

Lemma initialState_inv : cursorInv lib (initialState lib).
Proof. unfold initialState; inv_goal. Qed.

Lemma drawLine_inv x size fnt line st :
  cursorInv lib st -> cursorInv lib (snd (drawLine lib x size fnt line st)).
Proof. intros H; unfold_layout; repeat break_match; cbn [snd]; inv_goal. Qed.

Lemma drawTitle_inv text st :
  cursorInv lib st ->
  cursorInv lib (snd (drawTitle lib fontBold useUnicode text st)).
Proof. intros H; unfold_layout; repeat break_match; cbn [snd]; inv_goal. Qed.

Lemma drawSectionHeader_inv text st :
  cursorInv lib st ->
  cursorInv lib (snd (drawSectionHeader lib fontBold useUnicode text st)).
Proof. intros H; unfold_layout; repeat break_match; cbn [snd]; inv_goal. Qed.

Lemma exec_inv c st :
  movesDown c -> cursorInv lib st ->
  cursorInv lib (snd (exec lib font fontBold useUnicode c st)).
Proof.
  destruct c as [text | text | text | k]; cbn [exec movesDown]; intros Hk H.
  - apply drawTitle_inv; exact H.
  - apply drawSectionHeader_inv; exact H.
  - unfold drawWrapped; apply (forEach_preserves (cursorInv lib)); [|exact H].
    intros; apply drawLine_inv; assumption.
  - unfold_layout; cbn [snd]; inv_goal.
Qed.

Lemma run_inv calls st :
  Forall movesDown calls -> cursorInv lib st ->
  cursorInv lib (snd (run lib font fontBold useUnicode calls st)).
Proof.
  intros Hc H; unfold run; apply (forEach_preserves (cursorInv lib)); [|exact H].
  intros c s Hin Hs; apply exec_inv; [|exact Hs].
  rewrite Forall_forall in Hc; auto.
Qed.
End LayoutFacts.

(** ** Failures and pages *)

Section Failures.
Variables (lib : PdfLib) (font fontBold : Font) (useUnicode : bool).

(** The library draws every text of printable ASCII characters: a
    [drawText] that throws does so for an unsupported glyph. *)
Hypothesis glyphs :
  forall s opts, forallb printable s = true -> drawText lib s opts = None.

Ltac no_glyph_failure :=
  repeat match goal with
         | H : drawText lib (asciiFallback ?s) ?o = Some _ |- _ =>
             rewrite (glyphs (asciiFallback s) o (asciiFallback_printable s)) in H;
             discriminate H
         end.

Lemma forEach_throw {A : Type} (P : JsError -> Prop) (f : A -> M unit) :
  (forall a st e, fst (f a st) = Throw e -> P e) ->
  forall l st e, fst (forEach f l st) = Throw e -> P e.
Proof.
  intros Hf l; induction l as [|a l IH]; intros st e; [discriminate |].
  cbn [forEach]; unfold bind.
  pose proof (Hf a st) as H1.
  destruct (f a st) as [[[]|e1] st1]; cbn [fst] in *.
  - apply IH.
  - intros H; inversion H; subst; apply H1; reflexivity.
Qed.

Lemma drawLine_throw x size fnt line st e :
  fst (drawLine lib x size fnt line st) = Throw e ->
  exists n, addPage lib n = Some e.
Proof.
  unfold_layout; repeat break_match; cbn [fst]; intros H;
    try discriminate H; no_glyph_failure.
  inversion H; subst; eexists; eassumption.
Qed.

Lemma drawTitle_throw text st e :
  fst (drawTitle lib fontBold useUnicode text st) = Throw e ->
  exists n, addPage lib n = Some e.
Proof.
  unfold_layout; repeat break_match; cbn [fst]; intros H;
    try discriminate H; no_glyph_failure.
  inversion H; subst; eexists; eassumption.
Qed.

Lemma drawSectionHeader_throw text st e :
  fst (drawSectionHeader lib fontBold useUnicode text st) = Throw e ->
  exists n, addPage lib n = Some e.
Proof.
  unfold_layout; repeat break_match; cbn [fst]; intros H;
    try discriminate H; no_glyph_failure.
  inversion H; subst; eexists; eassumption.
Qed.

Lemma exec_throw c st e :
  fst (exec lib font fontBold useUnicode c st) = Throw e ->
  exists n, addPage lib n = Some e.
Proof.
  destruct c as [text | text | text | k]; cbn [exec].
  - apply drawTitle_throw.
  - apply drawSectionHeader_throw.
  - unfold drawWrapped.
    apply (forEach_throw (fun e => exists n, addPage lib n = Some e)).
    intros a s e'; apply drawLine_throw.
  - discriminate.
Qed.

(** Whatever escapes the drawing of a page was thrown by [addPage]. *)
Lemma run_throw calls st e :
  fst (run lib font fontBold useUnicode calls st) = Throw e ->
  exists n, addPage lib n = Some e.
Proof.
  unfold run.
  apply (forEach_throw (fun e => exists n, addPage lib n = Some e)).
  intros a s e'; apply exec_throw.
Qed.

Lemma run_ok calls st :
  (forall n, addPage lib n = None) ->
  fst (run lib font fontBold useUnicode calls st) = Ok tt.
Proof.
  intros Hpages.
  destruct (fst (run lib font fontBold useUnicode calls st)) as [[]|e] eqn:H;
    [reflexivity |].
  apply run_throw in H as [n Hn]; rewrite Hpages in Hn; discriminate.
Qed.

(** The three helpers draw once, the text or its fallback. *)
Lemma drawLine_fallback x size fnt line :
  drawsWithFallback lib (drawLine lib x size fnt line) lineHeight lineHeight
                    line x size fnt.
Proof.
  intros st st1 Hspace; unfold drawLine, bind; rewrite Hspace.
  unfold tryCatch, pageDrawText, moveY, setY.
  repeat break_match; no_glyph_failure; reflexivity.
Qed.

Lemma drawTitle_fallback text :
  drawsWithFallback lib (drawTitle lib fontBold useUnicode text)
                    (lineHeight * 2) (lineHeight * 2)
                    (processText useUnicode text) margin titleSize fontBold.
Proof.
  intros st st1 Hspace; unfold drawTitle, bind; rewrite Hspace.
  unfold tryCatch, pageDrawText, moveY, setY.
  repeat break_match; no_glyph_failure; reflexivity.
Qed.

Lemma drawSectionHeader_fallback text :
  drawsWithFallback lib (drawSectionHeader lib fontBold useUnicode text)
                    (lineHeight * 2) (lineHeight * 3 / 2)
                    (processText useUnicode text) margin sectionHeaderSize
                    fontBold.
Proof.
  intros st st1 Hspace; unfold drawSectionHeader, bind; rewrite Hspace.
  unfold tryCatch, pageDrawText, moveY, setY.
  repeat break_match; no_glyph_failure; reflexivity.
Qed.
End Failures.

Section Pages.
Variables (lib : PdfLib) (font fontBold : Font) (useUnicode : bool).

(** One line either opens a page or moves the cursor down on the same
    page. *)
Lemma drawLine_step x size fnt line st :
  fst (drawLine lib x size fnt line st) = Ok tt ->
  (y st - lineHeight < margin
   /\ pageCount (snd (drawLine lib x size fnt line st)) = S (pageCount st))
  \/ (margin <= y st - lineHeight
      /\ pageCount (snd (drawLine lib x size fnt line st)) = pageCount st
      /\ y (snd (drawLine lib x size fnt line st)) = y st - lineHeight).
Proof.
  unfold_layout; repeat break_match; cbn [fst snd pageCount y]; intros H;
    try discriminate H;
    repeat match goal with
           | H : (_ <? _) = true |- _ => apply Z.ltb_lt in H
           | H : (_ <? _) = false |- _ => apply Z.ltb_ge in H
           end;
    first [left; split; [assumption | reflexivity]
          | right; repeat split; assumption].
Qed.

(** Lines that do not fit between the cursor and the bottom margin open
    a page. *)
Lemma drawLines_new_page x size fnt (lines : list jsstring) :
  forall st,
    lines <> [] ->
    lineHeight * Z.of_nat (length lines) > y st - margin ->
    fst (forEach (drawLine lib x size fnt) lines st) = Ok tt ->
    (pageCount st < pageCount (snd (forEach (drawLine lib x size fnt) lines st)))%nat.
Proof.
  induction lines as [|line rest IH]; intros st Hne Hlen; [contradiction |].
  cbn [forEach]; unfold bind.
  pose proof (drawLine_step x size fnt line st) as Hstep.
  destruct (drawLine lib x size fnt line st) as [[[]|e] st1]; cbn [fst snd] in *;
    [|discriminate].
  intros Hok.
  pose proof (forEach_advances (drawLine lib x size fnt)
                (drawLine_advances lib x size fnt) rest st1) as [_ Hmono].
  destruct (Hstep eq_refl) as [[_ Hp] | [Hy [Hp Hy1]]]; [lia |].
  destruct rest as [|line' rest'].
  - cbn [length] in Hlen; unfold lineHeight in *; lia.
  - assert (Hlt : (pageCount st1 <
                   pageCount (snd (forEach (drawLine lib x size fnt)
                                           (line' :: rest') st1)))%nat).
    { apply IH; [discriminate | | exact Hok].
      rewrite Hy1. cbn [length] in *. unfold lineHeight in *. lia. }
    lia.
Qed.

Lemma pageCount_initial : pageCount (initialState lib) = 1%nat.
Proof. reflexivity. Qed.

(** A wrapped text with more lines than a page holds gives the document
    a second page. *)
Lemma run_long_text calls text :
  margin * 2 + lineHeight * 2 <= height lib ->
  Forall movesDown calls ->
  In (DrawWrapped text) calls ->
  lineHeight
  * Z.of_nat (length (wrapText useUnicode text (maxTextWidth lib) font bodySize))
  > height lib - margin * 2 ->
  fst (run lib font fontBold useUnicode calls (initialState lib)) = Ok tt ->
  (2 <= pageCount (snd (run lib font fontBold useUnicode calls (initialState lib))))%nat.
Proof.
  intros Hsize Hdown Hin Hlong.
  destruct (in_split _ _ Hin) as [pre [post ->]].
  unfold run; rewrite forEach_app; unfold bind.
  fold (run lib font fontBold useUnicode pre).
  pose proof (run_advances lib font fontBold useUnicode pre (initialState lib))
    as [_ Hpre].
  apply Forall_app in Hdown as [Hdpre _].
  pose proof (run_inv lib font fontBold useUnicode Hsize pre (initialState lib)
                      Hdpre (initialState_inv lib)) as [Hy _].
  destruct (run lib font fontBold useUnicode pre (initialState lib))
    as [[[]|e] st1]; cbn [fst snd] in *; [|discriminate].
  cbn [forEach exec]; unfold bind.
  set (lines := wrapText useUnicode text (maxTextWidth lib) font bodySize) in *.
  unfold drawWrapped; fold lines.
  pose proof (drawLines_new_page margin bodySize font lines st1) as Hnew.
  destruct (forEach (drawLine lib margin bodySize font) lines st1)
    as [[[]|e] st2]; cbn [fst snd] in *; [|discriminate].
  intros Hok.
  pose proof (forEach_advances (exec lib font fontBold useUnicode)
                (exec_advances lib font fontBold useUnicode) post st2) as [_ Hpost].
  assert (Hlt : (pageCount st1 < pageCount st2)%nat).
  { apply Hnew; [| | reflexivity].
    - intros Hnil; rewrite Hnil in Hlong; cbn [length] in Hlong.
      unfold margin, lineHeight in *; lia.
    - unfold margin, lineHeight in *; lia. }
  rewrite pageCount_initial in Hpre; lia.
Qed.

(** *** The first text drawn *)

(** On a page without text [drawTitle] draws the processed title or its
    fallback, or throws and draws nothing. *)
Lemma drawTitle_drawn text st :
  drawnTexts st = [] ->
  (fst (drawTitle lib fontBold useUnicode text st) = Ok tt
   /\ (drawnTexts (snd (drawTitle lib fontBold useUnicode text st))
       = [processText useUnicode text]
       \/ drawnTexts (snd (drawTitle lib fontBold useUnicode text st))
          = [asciiFallback (processText useUnicode text)]))
  \/ (exists e,
        fst (drawTitle lib fontBold useUnicode text st) = Throw e
        /\ drawnTexts (snd (drawTitle lib fontBold useUnicode text st)) = []).
Proof.
  unfold drawnTexts; intros Hst.
  unfold_layout; repeat break_match; cbn [fst snd log rev];
    rewrite ?flat_map_app, ?Hst; cbn [flat_map eventText app];
    first [ left; split; [reflexivity | auto]
          | right; eexists; split; [reflexivity | auto] ].
Qed.

Lemma run_title_first text rest :
  forall t0,
    hd_error (drawnTexts (snd (run lib font fontBold useUnicode
                                   (DrawTitle text :: rest) (initialState lib))))
    = Some t0 ->
    t0 = processText useUnicode text
    \/ t0 = asciiFallback (processText useUnicode text).
Proof.
  intros t0; unfold run; cbn [forEach exec]; unfold bind.
  pose proof (drawTitle_drawn text (initialState lib) eq_refl) as Hd.
  destruct (drawTitle lib fontBold useUnicode text (initialState lib))
    as [r st1]; cbn [fst snd] in *.
  destruct Hd as [[-> Hd] | [e [-> Hd]]].
  - pose proof (forEach_advances (exec lib font fontBold useUnicode)
                  (exec_advances lib font fontBold useUnicode) rest st1) as Hadv.
    apply advances_drawnTexts in Hadv as [more ->].
    destruct Hd as [-> | ->]; cbn [app hd_error]; intros H; inversion H; auto.
  - cbn [snd]; rewrite Hd; discriminate.
Qed.

Lemma run_title_drawn text rest :
  (forall n, addPage lib n = None) ->
  (forall s opts, forallb printable s = true -> drawText lib s opts = None) ->
  exists t0,
    hd_error (drawnTexts (snd (run lib font fontBold useUnicode
                                   (DrawTitle text :: rest) (initialState lib))))
    = Some t0.
Proof.
  intros Hpages Hglyphs; unfold run; cbn [forEach exec]; unfold bind.
  pose proof (drawTitle_drawn text (initialState lib) eq_refl) as Hd.
  pose proof (drawTitle_throw lib fontBold useUnicode Hglyphs text (initialState lib))
    as Hthrow.
  destruct (drawTitle lib fontBold useUnicode text (initialState lib))
    as [r st1]; cbn [fst snd] in *.
  destruct Hd as [[-> Hd] | [e [-> Hd]]].
  - pose proof (forEach_advances (exec lib font fontBold useUnicode)
                  (exec_advances lib font fontBold useUnicode) rest st1) as Hadv.
    apply advances_drawnTexts in Hadv as [more ->].
    destruct Hd as [-> | ->]; cbn [app hd_error]; eexists; reflexivity.
  - destruct (Hthrow e eq_refl) as [n Hn]; rewrite Hpages in Hn; discriminate.
Qed.
End Pages.

(** ** The calls of a page *)

Lemma pageCalls_movesDown (useUnicode : bool) (req : Request) :
  Forall movesDown (pageCalls useUnicode req).
Proof.
  assert (Hline : 0 <= lineHeight) by (unfold lineHeight; lia).
  unfold pageCalls.
  destruct (params req) as [|p ps].
  - unfold instructionsCalls; repeat constructor; cbn; unfold lineHeight; lia.
  - unfold echoCalls.
    apply Forall_app; split; [repeat constructor |].
    apply Forall_app; split; [|apply Forall_app; split; [|repeat constructor]].
    + unfold textCalls.
      destruct (textParam (p :: ps)) as [v|]; [|constructor].
      destruct (truthy v); repeat constructor; exact Hline.
    + unfold extraCalls.
      destruct (extraParams (p :: ps)) as [|e es]; [constructor |].
      apply Forall_app; split; [repeat constructor |].
      apply Forall_app; split; [|apply Forall_app; split].
      * unfold noteCalls; destruct (noteCondition (p :: ps));
          repeat constructor; exact Hline.
      * apply Forall_forall; intros c Hc.
        apply in_map_iff in Hc as [kv [<- _]]; exact I.
      * repeat constructor; exact Hline.
Qed.

(** The page of a request with parameters starts with its title. *)
Lemma pageCalls_title (useUnicode : bool) (req : Request) :
  params req <> [] ->
  exists rest,
    pageCalls useUnicode req = DrawTitle (titleParam (params req)) :: rest.
Proof.
  unfold pageCalls; destruct (params req) as [|p ps]; [contradiction |].
  intros _; eexists; reflexivity.
Qed.

Lemma searchGet_some_params (key v : jsstring) (ps : list (jsstring * jsstring)) :
  searchGet key ps = Some v -> ps <> [].
Proof. destruct ps; [discriminate | discriminate]. Qed.

(** ** wrapText: when there is a line *)

Lemma codePoints_truthy (s : jsstring) : Forall (fun ch => truthy ch = true) (codePoints s).
Proof.
assert (H : forall n (s : jsstring), (length s <= n)%nat ->
            Forall (fun ch => truthy ch = true) (codePoints s)).
{ induction n as [|n IH]; intros [|c rest] Hlen; try (constructor; fail).
  - cbn in Hlen; lia.
  - cbn [length] in Hlen; cbn [codePoints].
    destruct rest as [|d rest']; [repeat constructor |].
    cbn [length] in Hlen.
    destruct (isHighSurrogate c && isLowSurrogate d);
      constructor; try reflexivity; apply IH; cbn [length]; lia. }
apply (H (length s)); lia.
Qed.

Lemma codePoints_nonempty (s : jsstring) : truthy s = true -> codePoints s <> [].
Proof.
destruct s as [|c [|d rest]]; cbn; try discriminate.
destruct (isHighSurrogate c && isLowSurrogate d); discriminate.
Qed.

Section WrapNonEmpty.
Variables (fnt : Font) (size : Z) (maxWidth : Q).

Lemma pushIf_nonempty (lines : list jsstring) (s : jsstring) :
  lines <> [] \/ truthy s = true -> pushIf lines s <> [].
Proof.
unfold pushIf; intros [H | H].
- destruct (truthy s); [destruct lines; [contradiction | discriminate] | exact H].
- rewrite H; destruct lines; discriminate.
Qed.

Lemma hardSplit_keeps (chs : list jsstring) :
  forall lines chunk,
    Forall (fun ch => truthy ch = true) chs ->
    (lines <> [] -> fst (hardSplit fnt size maxWidth chs lines chunk) <> [])
    /\ (truthy chunk = true \/ chs <> [] ->
        truthy (snd (hardSplit fnt size maxWidth chs lines chunk)) = true).
Proof.
induction chs as [|ch rest IH]; intros lines chunk Hchs; cbn [hardSplit fst snd].
- split; [auto | intros [H | H]; [exact H | contradiction]].
- apply Forall_cons_iff in Hchs as [Hch Hrest].
  destruct (fits fnt size maxWidth (chunk ++ ch)).
  + destruct (IH lines (chunk ++ ch) Hrest) as [H1 H2]; split; [exact H1 |].
    intros _; apply H2; left.
    destruct chunk; [exact Hch | reflexivity].
  + destruct (IH (pushIf lines chunk) ch Hrest) as [H1 H2]; split.
    * intros Hl; apply H1; apply pushIf_nonempty; left; exact Hl.
    * intros _; apply H2; left; exact Hch.
Qed.

Lemma wrapWords_nonempty (words : list jsstring) :
  forall lines current,
    lines <> [] \/ truthy current = true \/ existsb truthy words = true ->
    wrapWords fnt size maxWidth words lines current <> [].
Proof.
induction words as [|w rest IH]; intros lines current H.
- cbn [wrapWords]; apply pushIf_nonempty.
  destruct H as [H | [H | H]]; [left | right | discriminate]; exact H.
- rewrite wrapWords_cons.
  destruct (fits fnt size maxWidth _).
  + apply IH.
    destruct H as [H | [H | H]]; [left; exact H | right; left | ].
    * rewrite H; apply truthy_app_l; exact H.
    * cbn [existsb] in H; apply orb_true_iff in H as [H | H]; [|auto].
      right; left; destruct (truthy current) eqn:Hc;
        [apply truthy_app_l; exact Hc | exact H].
  + destruct (hardSplit_keeps (codePoints w) (pushIf lines current) []
                              (codePoints_truthy w)) as [H1 H2].
    apply IH.
    destruct H as [H | [H | H]].
    * left; apply H1, pushIf_nonempty; left; exact H.
    * left; apply H1, pushIf_nonempty; right; exact H.
    * cbn [existsb] in H; apply orb_true_iff in H as [H | H]; [|auto].
      right; left; apply H2; right; apply codePoints_nonempty; exact H.
Qed.
End WrapNonEmpty.

Lemma wrapText_nonempty (useUnicode : bool) (text : jsstring) (maxWidth : Q)
      (fnt : Font) (size : Z) :
  hasWord useUnicode text = true ->
  wrapText useUnicode text maxWidth fnt size <> [].
Proof.
intros H; unfold wrapText; apply wrapWords_nonempty; right; right; exact H.
Qed.

Lemma splitRuns_word (s : jsstring) :
  forall inRun,
    existsb (fun c => negb (isSpace c)) s = true ->
    existsb truthy (splitRuns inRun s) = true.
Proof.
induction s as [|c rest IH]; intros inRun H; [discriminate |].
cbn [existsb] in H; cbn [splitRuns].
destruct (isSpace c); cbn [negb orb] in H.
- destruct inRun; [apply IH; exact H |].
  cbn [existsb truthy orb]; apply IH; exact H.
- destruct (splitRuns false rest); reflexivity.
Qed.

(** The line of a parameter always has a word: its equals sign. *)
Lemma hasWord_paramLine (useUnicode : bool) (kv : jsstring * jsstring) :
  hasWord useUnicode (paramLine kv) = true.
Proof.
unfold hasWord, splitWhitespace; apply splitRuns_word.
unfold paramLine, processText.
set (v := slice0 MAX_VALUE_LEN (snd kv)).
assert (Ht : truthy (fst kv ++ lit " = " ++ v) = true)
  by (destruct (fst kv); reflexivity).
rewrite Ht; cbn [negb].
destruct useUnicode.
- rewrite !existsb_app; apply orb_true_iff; right; reflexivity.
- rewrite !flat_map_app, !existsb_app; apply orb_true_iff; right; reflexivity.
Qed.

(** ** The lower bound of the cursor *)

Section CursorLow.
Variables (lib : PdfLib) (font fontBold : Font) (useUnicode : bool).
Hypothesis page_size : margin * 2 + lineHeight * 2 <= height lib.

Ltac low_goal :=
  unfold lowInv in *; cbn [y log fst snd] in *;
  repeat match goal with
         | H : _ /\ _ |- _ => destruct H
         | H : (_ <? _) = true |- _ => apply Z.ltb_lt in H
         | H : (_ <? _) = false |- _ => apply Z.ltb_ge in H
         end;
  repeat match goal with
         | |- _ /\ _ => split
         | |- (_ = Ok tt) -> _ =>
             let Hok := fresh "Hok" in intros Hok; try discriminate Hok
         | |- (false = true) -> _ =>
             let Hf := fresh "Hf" in intros Hf; discriminate Hf
         | |- (true = true) -> _ => intros _
         | |- Forall _ (_ :: _) => apply Forall_cons
         | |- Forall _ [] => apply Forall_nil
         end;
  try assumption; cbn [cursorLow]; try exact I;
  try change (lineHeight * 3 / 2) with 27;
  unfold margin, lineHeight in *; try lia.

Lemma lowInv_weaken fresh st : lowInv fresh st -> lowInv false st.
Proof. intros [H1 [_ H3]]; split; [exact H1 | split; [discriminate | exact H3]]. Qed.

Lemma drawLine_low x size fnt line fresh st :
  lowInv fresh st ->
  lowInv false (snd (drawLine lib x size fnt line st))
  /\ (fst (drawLine lib x size fnt line st) = Ok tt ->
      lowInv true (snd (drawLine lib x size fnt line st))).
Proof. intros H; unfold_layout; repeat break_match; low_goal. Qed.

Lemma drawTitle_low text fresh st :
  lowInv fresh st ->
  lowInv false (snd (drawTitle lib fontBold useUnicode text st))
  /\ (fst (drawTitle lib fontBold useUnicode text st) = Ok tt ->
      lowInv true (snd (drawTitle lib fontBold useUnicode text st))).
Proof. intros H; unfold_layout; repeat break_match; low_goal. Qed.

Lemma drawSectionHeader_low text fresh st :
  lowInv fresh st ->
  lowInv false (snd (drawSectionHeader lib fontBold useUnicode text st))
  /\ (fst (drawSectionHeader lib fontBold useUnicode text st) = Ok tt ->
      lowInv true (snd (drawSectionHeader lib fontBold useUnicode text st))).
Proof. intros H; unfold_layout; repeat break_match; low_goal. Qed.

Lemma moveY_low k st :
  0 <= k <= lineHeight * 2 ->
  lowInv true st -> lowInv false (snd (moveY k st)).
Proof.
intros Hk [H1 [H2 H3]]; specialize (H2 eq_refl).
unfold moveY, setY; low_goal.
Qed.

Lemma drawLines_low x size fnt (lines : list jsstring) :
  forall fresh st,
    lowInv fresh st ->
    lowInv false (snd (forEach (drawLine lib x size fnt) lines st))
    /\ (fst (forEach (drawLine lib x size fnt) lines st) = Ok tt ->
        fresh = true \/ lines <> [] ->
        lowInv true (snd (forEach (drawLine lib x size fnt) lines st))).
Proof.
induction lines as [|line rest IH]; intros fresh st Hst.
- cbn [forEach ret fst snd]; split; [exact (lowInv_weaken _ _ Hst) |].
  intros _ [-> | H]; [exact Hst | contradiction].
- cbn [forEach]; unfold bind.
  destruct (drawLine_low x size fnt line fresh st Hst) as [Hw Hs].
  destruct (drawLine lib x size fnt line st) as [[[]|e] st1]; cbn [fst snd] in *.
  + destruct (IH true st1 (Hs eq_refl)) as [Hw' Hs'].
    split; [exact Hw' | intros Hok _; apply Hs'; auto].
  + split; [exact Hw | discriminate].
Qed.

(** Spaced-out decrements never set the cursor lower than two line
    heights below the bottom margin. *)
Lemma run_low (calls : list Call) :
  forall fresh st,
    spaced useUnicode fresh calls = true ->
    lowInv fresh st ->
    lowInv false (snd (run lib font fontBold useUnicode calls st)).
Proof.
unfold run; induction calls as [|c rest IH]; intros fresh st Hsp Hst.
- exact (lowInv_weaken _ _ Hst).
- cbn [forEach]; unfold bind.
  destruct c as [text | text | text | k]; cbn [exec spaced] in *.
  + destruct (drawTitle_low text fresh st Hst) as [Hw Hs].
    destruct (drawTitle lib fontBold useUnicode text st) as [[[]|e] st1];
      cbn [fst snd] in *; [|exact Hw].
    apply (IH true); [exact Hsp | apply Hs; reflexivity].
  + destruct (drawSectionHeader_low text fresh st Hst) as [Hw Hs].
    destruct (drawSectionHeader lib fontBold useUnicode text st) as [[[]|e] st1];
      cbn [fst snd] in *; [|exact Hw].
    apply (IH true); [exact Hsp | apply Hs; reflexivity].
  + unfold drawWrapped.
    destruct (drawLines_low margin bodySize font
                (wrapText useUnicode text (maxTextWidth lib) font bodySize)
                fresh st Hst) as [Hw Hs].
    destruct (forEach (drawLine lib margin bodySize font) _ st) as [[[]|e] st1];
      cbn [fst snd] in *; [|exact Hw].
    apply (IH (fresh || hasWord useUnicode text)); [exact Hsp |].
    destruct fresh; cbn [orb].
    * apply Hs; auto.
    * destruct (hasWord useUnicode text) eqn:Hword; [|exact Hw].
      apply Hs; [reflexivity | right; apply wrapText_nonempty; exact Hword].
  + apply andb_true_iff in Hsp as [Hsp Hrest].
    apply andb_true_iff in Hsp as [Hsp Hk2].
    apply andb_true_iff in Hsp as [Hfresh Hk1].
    subst fresh; apply Z.leb_le in Hk1, Hk2.
    apply (IH false); [exact Hrest |].
    apply moveY_low; [split; assumption | exact Hst].
Qed.

Lemma initialState_low : lowInv true (initialState lib).
Proof. unfold initialState; low_goal. Qed.
End CursorLow.

Lemma spaced_lines (useUnicode : bool) (es : list (jsstring * jsstring))
      (rest : list Call) :
  forall fresh,
    es <> [] ->
    spaced useUnicode fresh (map (fun kv => DrawWrapped (paramLine kv)) es ++ rest)
    = spaced useUnicode true rest.
Proof.
induction es as [|kv es IH]; intros fresh Hne; [contradiction |].
cbn [map app spaced]; rewrite hasWord_paramLine, orb_true_r.
destruct es as [|kv' es']; [reflexivity |].
apply IH; discriminate.
Qed.

(** The decrements of both pages are spaced out. *)
Lemma pageCalls_spaced (useUnicode : bool) (req : Request) :
  spaced useUnicode true (pageCalls useUnicode req) = true.
Proof.
unfold pageCalls.
destruct (params req) as [|p ps]; [reflexivity |].
unfold echoCalls; cbn [app spaced].
assert (Hextra : forall fresh,
           spaced useUnicode fresh
                  (extraCalls (p :: ps)
                   ++ [DrawSectionHeader (lit "Disclaimer");
                       DrawWrapped (disclaimerText useUnicode)]) = true).
{ intros fresh; unfold extraCalls.
  destruct (extraParams (p :: ps)) as [|e es] eqn:He; [reflexivity |].
  cbn [app spaced]; unfold noteCalls.
  destruct (noteCondition (p :: ps)); cbn [app spaced orb andb];
    rewrite <- app_assoc, spaced_lines by discriminate; reflexivity. }
unfold textCalls.
destruct (textParam (p :: ps)) as [v|]; [|apply Hextra].
destruct (truthy v); [|apply Hextra].
cbn [app spaced orb andb]; apply Hextra.
Qed.

(** ** The cursor and the pages of a request *)

Lemma cursorValues_In (st : LayoutState) (v : Z) :
  In v (cursorValues st) <-> In (EvCursor v) (log st).
Proof.
  unfold cursorValues; rewrite in_flat_map; split.
  - intros [ev [Hin Hv]]; apply in_rev in Hin.
    destruct ev; cbn in Hv; try contradiction.
    destruct Hv as [-> | []]; exact Hin.
  - intros Hin; exists (EvCursor v); split; [apply in_rev in Hin; exact Hin |].
    left; reflexivity.
Qed.

Lemma render_inv (lib : PdfLib) (font fontBold : Font) (useUnicode : bool)
      (req : Request) :
  margin * 2 + lineHeight * 2 <= height lib ->
  cursorInv lib (snd (render lib font fontBold useUnicode req)).
Proof.
  intros Hsize; unfold render; apply run_inv.
  - exact Hsize.
  - apply pageCalls_movesDown.
  - apply initialState_inv.
Qed.

Lemma render_low (lib : PdfLib) (font fontBold : Font) (useUnicode : bool)
      (req : Request) :
  margin * 2 + lineHeight * 2 <= height lib ->
  lowInv false (snd (render lib font fontBold useUnicode req)).
Proof.
  intros Hsize; unfold render.
  apply (run_low lib font fontBold useUnicode Hsize _ true).
  - apply pageCalls_spaced.
  - apply initialState_low; exact Hsize.
Qed.

(** C2, amended: on a page with room for a title between its margins, the
    cursor stays between margin - 2 lineHeight and pageHeight - margin at
    every point; every text is drawn with the cursor between
    margin + lineHeight and pageHeight - margin, so no line is drawn below
    the bottom margin; when the space needed would bring the cursor below the
    bottom margin [ensureSpace] allocates a page and resets the cursor to
    pageHeight - margin, and otherwise changes nothing; and a wrapped text
    whose line count times lineHeight exceeds the usable height gives a
    document of more than one page. *)
Theorem cursor_bounds_and_pagination (lib : PdfLib) (font fontBold : Font)
        (useUnicode : bool) (req : Request) :
  margin * 2 + lineHeight * 2 <= height lib ->
  (forall v,
      In v (cursorValues (snd (render lib font fontBold useUnicode req))) ->
      margin - lineHeight * 2 <= v <= height lib - margin)
  /\ (forall page text opts,
         In (EvDrawText page text opts)
            (log (snd (render lib font fontBold useUnicode req))) ->
         margin + lineHeight <= opt_y opts <= height lib - margin)
  /\ (forall st needed,
         y st - needed < margin ->
         addPage lib (pageCount st) = None ->
         ensureSpace lib needed st
         = (Ok tt,
            mkState (S (pageCount st)) (height lib - margin)
                    (EvCursor (height lib - margin)
                     :: EvRectangle :: EvAddPage :: log st)))
  /\ (forall st needed,
         margin <= y st - needed -> ensureSpace lib needed st = (Ok tt, st))
  /\ (forall text,
         In (DrawWrapped text) (pageCalls useUnicode req) ->
         lineHeight
         * Z.of_nat (length (wrapText useUnicode text (maxTextWidth lib)
                                      font bodySize))
         > height lib - margin * 2 ->
         (fst (render lib font fontBold useUnicode req) = Ok tt ->
          (2 <= pageCount (snd (render lib font fontBold useUnicode req)))%nat)
         /\ ((forall n, addPage lib n = None) ->
             (forall s opts, forallb printable s = true ->
                             drawText lib s opts = None) ->
             fst (render lib font fontBold useUnicode req) = Ok tt)).
Proof.
  intros Hsize.
  pose proof (render_inv lib font fontBold useUnicode req Hsize) as [_ Hlog].
  rewrite Forall_forall in Hlog.
  pose proof (render_low lib font fontBold useUnicode req Hsize) as [_ [_ Hmin]].
  rewrite Forall_forall in Hmin.
  split; [|split; [|split; [|split]]].
  - intros v Hv; apply cursorValues_In in Hv.
    split; [exact (Hmin _ Hv) | exact (Hlog _ Hv)].
  - intros page text opts Hin; exact (Hlog _ Hin).
  - intros st needed Hlow Hpage; unfold ensureSpace, newPage, setY.
    apply Z.ltb_lt in Hlow; rewrite Hlow, Hpage; reflexivity.
  - intros st needed Hroom; unfold ensureSpace.
    apply Z.ltb_ge in Hroom; rewrite Hroom; reflexivity.
  - intros text Hin Hlong; split.
    + unfold render; apply run_long_text with (text := text); auto.
      apply pageCalls_movesDown.
    + intros Hpages Hglyphs; unfold render; apply run_ok; assumption.
Qed.

(** On Letter pages and with glyphs 300 units wide, a paragraph of forty
    letters is wrapped into forty lines, more than the 692 units between the
    margins hold, and the document has a second page. *)
Lemma cursor_bounds_and_pagination_witness :
  margin * 2 + lineHeight * 2 <= height wideLib
  /\ (2 <= pageCount (snd (render wideLib wideFont wideFont false
                                   (requestOf paramsForty))))%nat.
Proof.
  assert (Hsize : margin * 2 + lineHeight * 2 <= height wideLib)
    by (vm_compute; discriminate).
  split; [exact Hsize |].
  refine (proj1 (proj2 (proj2 (proj2 (proj2
            (cursor_bounds_and_pagination wideLib wideFont wideFont false
               (requestOf paramsForty) Hsize))))
            (repeat 0x78%N 40) _ _) _).
  - vm_compute; tauto.
  - vm_compute; reflexivity.
  - vm_compute; reflexivity.
Defined.

(** C2 as stated fails: with thirty-four one-line parameters nothing
    throws, and after the last of them the cursor is set to 49, below the
    bottom margin of 50, before the next header is drawn. *)
Lemma cursor_below_margin_counterexample :
  fst (render stdLib stdFont stdFontBold false (requestOf params34)) = Ok tt
  /\ In 49 (cursorValues
              (snd (render stdLib stdFont stdFontBold false (requestOf params34))))
  /\ ~ (margin <= 49).
Proof.
  split; [vm_compute; reflexivity |].
  split; [vm_compute; tauto | vm_compute; intros H; apply H; reflexivity].
Qed.

(** ** Glyph failures *)

Lemma generate_throw (lib : PdfLib) (req : Request) (e : JsError) :
  (forall s opts, forallb printable s = true -> drawText lib s opts = None) ->
  generate lib req = Throw e -> constructionFailure lib e.
Proof.
  intros Hglyphs; unfold generate, constructionFailure.
  destruct (create lib) as [e0|] eqn:Hcreate.
  { intros H; inversion H; subst; left; reflexivity. }
  destruct (addPage lib 0) as [e0|] eqn:Hpage.
  { intros H; inversion H; subst; right; left; exists 0%nat; exact Hpage. }
  destruct (embedFonts lib) as [[[font fontBold] useUnicode]|e0] eqn:Hfonts.
  - destruct (render lib font fontBold useUnicode req) as [[[]|e1] st] eqn:Hrender.
    + intros H; right; right; right; eexists; exact H.
    + intros H; inversion H; subst.
      assert (Hfst : fst (render lib font fontBold useUnicode req) = Throw e)
        by (rewrite Hrender; reflexivity).
      unfold render in Hfst; apply run_throw in Hfst; [|exact Hglyphs].
      right; left; exact Hfst.
  - intros H; inversion H; subst.
    unfold embedFonts, embedStandard in Hfonts.
    right; right; left.
    destruct (embedFont lib Helvetica) as [f|e1] eqn:H1.
    + destruct (embedFont lib HelveticaBold) as [fb|e2] eqn:H2;
        [discriminate |].
      inversion Hfonts; subst; exists HelveticaBold; exact H2.
    + inversion Hfonts; subst; exists Helvetica; exact H1.
Qed.

(** C8: when the library can draw every text of printable ASCII
    characters, each of the three drawing helpers draws its text once, or,
    when that draw throws, draws once the text with every character outside
    U+0020..U+007E replaced by a question mark, and returns normally; what
    escapes the drawing of a page was thrown by page allocation, and every
    failed request failed in an operation that builds the document, never in
    drawing a text. *)
Theorem glyph_failure_recovered (lib : PdfLib) (font fontBold : Font)
        (useUnicode : bool) :
  (forall s opts, forallb printable s = true -> drawText lib s opts = None) ->
  (forall x size fnt line,
      drawsWithFallback lib (drawLine lib x size fnt line) lineHeight lineHeight
                        line x size fnt)
  /\ (forall text,
         drawsWithFallback lib (drawTitle lib fontBold useUnicode text)
                           (lineHeight * 2) (lineHeight * 2)
                           (processText useUnicode text) margin titleSize fontBold)
  /\ (forall text,
         drawsWithFallback lib (drawSectionHeader lib fontBold useUnicode text)
                           (lineHeight * 2) (lineHeight * 3 / 2)
                           (processText useUnicode text) margin
                           sectionHeaderSize fontBold)
  /\ (forall req e,
         fst (render lib font fontBold useUnicode req) = Throw e ->
         exists n, addPage lib n = Some e)
  /\ (forall req e, generate lib req = Throw e -> constructionFailure lib e)
  /\ (forall req,
         status (fetch lib req) = 500 -> exists e, constructionFailure lib e).
Proof.
  intros Hglyphs.
  split; [|split; [|split; [|split; [|split]]]].
  - intros x size fnt line; apply drawLine_fallback; exact Hglyphs.
  - intros text; apply drawTitle_fallback; exact Hglyphs.
  - intros text; apply drawSectionHeader_fallback; exact Hglyphs.
  - intros req e; unfold render; apply run_throw; exact Hglyphs.
  - intros req e; apply generate_throw; exact Hglyphs.
  - intros req; unfold fetch.
    destruct (generate lib req) as [bytes|e] eqn:Hgen; cbn [status];
      [discriminate |].
    intros _; exists e; apply (generate_throw lib req e Hglyphs Hgen).
Qed.

(** The line U+00E9 cannot be drawn by the standard font; a question mark
    is drawn in its place and nothing is thrown. *)
Lemma glyph_failure_recovered_witness :
  drawLine stdLib margin bodySize stdFont [0xE9%N] (initialState stdLib)
  = (Ok tt,
     mkState 1 (742 - lineHeight)
             (EvCursor (742 - lineHeight)
              :: EvDrawText 1 (lit "?") (mkOptions margin 742 bodySize stdFont)
              :: log (initialState stdLib))).
Proof.
  assert (Hglyphs : forall s opts,
             forallb printable s = true -> drawText stdLib s opts = None).
  { intros s opts Hs; cbn [drawText stdLib]; rewrite Hs; reflexivity. }
  exact (proj1 (glyph_failure_recovered stdLib stdFont stdFontBold false Hglyphs)
               margin bodySize stdFont [0xE9%N]
               (initialState stdLib) (initialState stdLib) eq_refl).
Defined.

(** ** The response *)

(** C9, amended: the handler answers 500 exactly when something is thrown
    while the document is built, and the body is then the text "Failed to
    generate PDF: " followed by the error's message, or by the error
    converted to a string when it has no message or an empty one; otherwise
    it answers 200 with the two PDF headers and the saved bytes. *)
Theorem fetch_response (lib : PdfLib) (req : Request) :
  (forall e,
      generate lib req = Throw e ->
      fetch lib req
      = mkResponse 500 []
                   (BodyText (lit "Failed to generate PDF: " ++ errorText e))
      /\ (forall m, message e = Some m -> truthy m = true -> errorText e = m)
      /\ (message e = None \/ message e = Some [] -> errorText e = asString e))
  /\ (forall pdfBytes,
         generate lib req = Ok pdfBytes ->
         fetch lib req = mkResponse 200 pdfHeaders (BodyBytes pdfBytes))
  /\ (status (fetch lib req) = 500 <-> exists e, generate lib req = Throw e)
  /\ (status (fetch lib req) = 200 <-> exists pdfBytes, generate lib req = Ok pdfBytes)
  /\ pdfHeaders
     = [ (lit "Content-Type", lit "application/pdf");
         (lit "Content-Disposition",
          lit "inline; filename=" ++ [0x22%N] ++ lit "pdfthis.pdf" ++ [0x22%N]) ].
Proof.
  unfold fetch.
  split; [|split; [|split; [|split]]].
  - intros e He; rewrite He.
    split; [reflexivity |]; split.
    + intros m Hm Ht; unfold errorText; rewrite Hm, Ht; reflexivity.
    + intros [Hm | Hm]; unfold errorText; rewrite Hm; reflexivity.
  - intros pdfBytes ->; reflexivity.
  - split.
    + destruct (generate lib req) as [b|e]; cbn [status]; [discriminate |].
      intros _; exists e; reflexivity.
    + intros [e ->]; reflexivity.
  - split.
    + destruct (generate lib req) as [b|e]; cbn [status]; [|discriminate].
      intros _; exists b; reflexivity.
    + intros [b ->]; reflexivity.
  - reflexivity.
Qed.

(** C9 as stated fails: when document creation throws an error whose
    message is empty, the body ends with the text "Error", the error
    converted to a string, not with the empty message. *)
Lemma fetch_empty_message_counterexample :
  generate (failingLib emptyError) (requestOf []) = Throw emptyError
  /\ message emptyError = Some []
  /\ fetch (failingLib emptyError) (requestOf [])
     = mkResponse 500 [] (BodyText (lit "Failed to generate PDF: Error"))
  /\ body (fetch (failingLib emptyError) (requestOf []))
     <> BodyText (lit "Failed to generate PDF: " ++ []).
Proof.
  split; [reflexivity |].
  split; [reflexivity |].
  split; [reflexivity |].
  vm_compute; discriminate.
Qed.

(** ** The parameters *)

Lemma searchGet_find (key : jsstring) (ps : list (jsstring * jsstring)) :
  searchGet key ps
  = option_map snd (find (fun kv => str_eqb (fst kv) key) ps).
Proof.
  induction ps as [|[k v] ps IH]; [reflexivity |].
  cbn [searchGet find fst]; destruct (str_eqb k key); [reflexivity | exact IH].
Qed.

Lemma pageCalls_echo (useUnicode : bool) (req : Request) :
  params req <> [] ->
  pageCalls useUnicode req
  = [DrawTitle (titleParam (params req))]
    ++ textCalls (params req)
    ++ extraCalls (params req)
    ++ [DrawSectionHeader (lit "Disclaimer");
        DrawWrapped (disclaimerText useUnicode)].
Proof.
  unfold pageCalls; destruct (params req); [contradiction | reflexivity].
Qed.

(** The title drawn for a request with parameters, when one is drawn, is
    the processed [titleParam]; and one is drawn when nothing fails. *)
Lemma render_title (lib : PdfLib) (font fontBold : Font) (req : Request) :
  params req <> [] ->
  (forall t0,
      hd_error (drawnTexts (snd (render lib font fontBold false req))) = Some t0 ->
      t0 = processText false (titleParam (params req)))
  /\ ((forall n, addPage lib n = None) ->
      (forall s opts, forallb printable s = true -> drawText lib s opts = None) ->
      hd_error (drawnTexts (snd (render lib font fontBold false req)))
      = Some (processText false (titleParam (params req)))).
Proof.
  intros Hps.
  destruct (pageCalls_title false req Hps) as [rest Hcalls].
  assert (Hfirst : forall t0,
             hd_error (drawnTexts (snd (render lib font fontBold false req)))
             = Some t0 ->
             t0 = processText false (titleParam (params req))).
  { intros t0 H; unfold render in H; rewrite Hcalls in H.
    apply run_title_first in H.
    rewrite (asciiFallback_id _ (processText_printable _)) in H.
    destruct H; assumption. }
  split; [exact Hfirst |].
  intros Hpages Hglyphs.
  destruct (run_title_drawn lib font fontBold false
              (titleParam (params req)) rest Hpages Hglyphs) as [t0 Ht0].
  unfold render; rewrite Hcalls, Ht0.
  f_equal; apply Hfirst; unfold render; rewrite Hcalls; exact Ht0.
Qed.

(** C10: when the title key is present with the empty string as its
    value, the title is the default "PDF": it is what [titleParam] holds,
    what the page's first call is given, and the first text drawn. *)
Theorem empty_title_defaults (req : Request) :
  searchGet (lit "title") (params req) = Some [] ->
  titleParam (params req) = lit "PDF"
  /\ (forall useUnicode,
         exists rest, pageCalls useUnicode req = DrawTitle (lit "PDF") :: rest)
  /\ (forall lib font fontBold t0,
         hd_error (drawnTexts (snd (render lib font fontBold false req))) = Some t0 ->
         t0 = lit "PDF")
  /\ (forall lib font fontBold,
         (forall n, addPage lib n = None) ->
         (forall s opts, forallb printable s = true -> drawText lib s opts = None) ->
         hd_error (drawnTexts (snd (render lib font fontBold false req)))
         = Some (lit "PDF")).
Proof.
  intros Hget.
  pose proof (searchGet_some_params _ _ _ Hget) as Hps.
  assert (Htitle : titleParam (params req) = lit "PDF")
    by (unfold titleParam; rewrite Hget; reflexivity).
  split; [exact Htitle |].
  split.
  { intros u; destruct (pageCalls_title u req Hps) as [rest Hc].
    exists rest; rewrite Hc, Htitle; reflexivity. }
  split.
  - intros lib font fontBold t0 H.
    apply (proj1 (render_title lib font fontBold req Hps)) in H.
    rewrite H, Htitle; reflexivity.
  - intros lib font fontBold Hpages Hglyphs.
    rewrite (proj2 (render_title lib font fontBold req Hps) Hpages Hglyphs).
    rewrite Htitle; reflexivity.
Qed.

(** The request [?title=] is drawn with the title "PDF". *)
Lemma empty_title_defaults_witness :
  titleParam (params (requestOf [(lit "title", [])])) = lit "PDF".
Proof.
  exact (proj1 (empty_title_defaults (requestOf [(lit "title", [])]) eq_refl)).
Defined.

(** C5, amended: when the title parameter has a non-empty value of at
    most 500 characters, the text drawn as the title is the processed form
    of that value, which is the value itself when all its characters are
    printable ASCII; cutting it to min(L, 500) characters changes nothing. *)
Theorem title_rendered (req : Request) (v : jsstring) :
  searchGet (lit "title") (params req) = Some v ->
  truthy v = true ->
  (length v <= MAX_VALUE_LEN)%nat ->
  slice0 (Nat.min (length v) MAX_VALUE_LEN) v = v
  /\ (forall useUnicode,
         exists rest, pageCalls useUnicode req = DrawTitle v :: rest)
  /\ (forall lib font fontBold t0,
         hd_error (drawnTexts (snd (render lib font fontBold false req))) = Some t0 ->
         t0 = processText false (slice0 (Nat.min (length v) MAX_VALUE_LEN) v))
  /\ (forall lib font fontBold,
         (forall n, addPage lib n = None) ->
         (forall s opts, forallb printable s = true -> drawText lib s opts = None) ->
         hd_error (drawnTexts (snd (render lib font fontBold false req)))
         = Some (processText false (slice0 (Nat.min (length v) MAX_VALUE_LEN) v)))
  /\ (forallb printable v = true -> processText false v = v).
Proof.
  intros Hget Hv Hlen.
  pose proof (searchGet_some_params _ _ _ Hget) as Hps.
  assert (Htitle : titleParam (params req) = v)
    by (unfold titleParam; rewrite Hget, Hv; reflexivity).
  assert (Hslice : slice0 (Nat.min (length v) MAX_VALUE_LEN) v = v).
  { unfold slice0; rewrite Nat.min_l by exact Hlen; apply firstn_all. }
  rewrite Hslice.
  split; [reflexivity |].
  split.
  { intros u; destruct (pageCalls_title u req Hps) as [rest Hc].
    exists rest; rewrite Hc, Htitle; reflexivity. }
  split; [|split].
  - intros lib font fontBold t0 H.
    apply (proj1 (render_title lib font fontBold req Hps)) in H.
    rewrite H, Htitle; reflexivity.
  - intros lib font fontBold Hpages Hglyphs.
    rewrite (proj2 (render_title lib font fontBold req Hps) Hpages Hglyphs).
    rewrite Htitle; reflexivity.
  - apply processText_id.
Qed.

(** The request [?title=Hello world!] is drawn with that title. *)
Lemma title_rendered_witness :
  exists rest,
    pageCalls false (requestOf [(lit "title", lit "Hello world!")])
    = DrawTitle (lit "Hello world!") :: rest.
Proof.
  refine (proj1 (proj2 (title_rendered
                          (requestOf [(lit "title", lit "Hello world!")])
                          (lit "Hello world!") eq_refl eq_refl _)) false).
  vm_compute; repeat constructor.
Defined.

(** C5 as stated fails: an empty title value is drawn as "PDF", and the
    five Arabic letters of the worker's own example are drawn as "MRHBA". *)
Lemma title_rendered_counterexample :
  (searchGet (lit "title") [(lit "title", [])] = Some []
   /\ drawnTexts (snd (render stdLib stdFont stdFontBold false
                              (requestOf [(lit "title", [])])))
      = [lit "PDF"; lit "Disclaimer";
         lit "Unicode characters are transliterated. Content is rendered from URL";
         lit "parameters."])
  /\ (searchGet (lit "title") [(lit "title", arabicTitle)] = Some arabicTitle
      /\ length arabicTitle = 5%nat
      /\ hd_error (drawnTexts (snd (render stdLib stdFont stdFontBold false
                                           (requestOf [(lit "title", arabicTitle)]))))
         = Some (lit "MRHBA")
      /\ lit "MRHBA" <> slice0 (Nat.min 5 500) arabicTitle).
Proof.
  split; [split; vm_compute; reflexivity |].
  split; [reflexivity |].
  split; [reflexivity |].
  split; [vm_compute; reflexivity |].
  vm_compute; discriminate.
Qed.

(** The title is not cut: a title of 501 letters is drawn whole. *)
Lemma long_title_drawn_whole :
  length longValue = 501%nat
  /\ hd_error (drawnTexts (snd (render stdLib stdFont stdFontBold false
                                       (requestOf [(lit "title", longValue)]))))
     = Some longValue.
Proof. split; vm_compute; reflexivity. Qed.

(** C6 as stated fails: the query [?a=1&a=2] gives the key a two lines. *)
Lemma repeated_keys_counterexample :
  extraCalls paramsRepeated
  = [DrawSectionHeader (lit "Extra information");
     DrawWrapped (lit "a = 1"); DrawWrapped (lit "a = 2"); MoveY lineHeight]
  /\ drawnTexts (snd (render stdLib stdFont stdFontBold false
                             (requestOf paramsRepeated)))
     = [lit "PDF"; lit "Extra information"; lit "a = 1"; lit "a = 2";
        lit "Disclaimer";
        lit "Unicode characters are transliterated. Content is rendered from URL";
        lit "parameters."].
Proof. split; vm_compute; reflexivity. Qed.

(** ** The note of the section "Extra information" *)

Lemma notReserved_count (ps : list (jsstring * jsstring)) :
  length ps
  = (length (filter notReserved ps)
     + length (filter (fun kv => str_eqb (fst kv) (lit "title")) ps)
     + length (filter (fun kv => str_eqb (fst kv) (lit "text")) ps))%nat.
Proof.
  induction ps as [|[k v] ps IH]; [reflexivity |].
  cbn [filter]; unfold notReserved at 1; cbn [fst].
  destruct (str_eqb k (lit "title")) eqn:Ht.
  - apply str_eqb_eq in Ht; subst k; cbn [negb andb length str_eqb].
    change (str_eqb (lit "title") (lit "text")) with false; cbn [length]; lia.
  - destruct (str_eqb k (lit "text")) eqn:Hx; cbn [negb andb length]; lia.
Qed.

Lemma searchHas_filter (key : jsstring) (ps : list (jsstring * jsstring)) :
  searchHas key ps = true
  <-> (0 < length (filter (fun kv => str_eqb (fst kv) key) ps))%nat.
Proof.
  unfold searchHas; induction ps as [|kv ps IH]; cbn [existsb filter].
  - cbn; split; [discriminate | lia].
  - destruct (str_eqb (fst kv) key); cbn [orb length]; [split; [lia | reflexivity] |].
    exact IH.
Qed.

(** When neither reserved key is repeated, the note is shown exactly when
    more than fifty parameters are not reserved. *)
Lemma noteCondition_unrepeated (ps : list (jsstring * jsstring)) :
  (length (filter (fun kv => str_eqb (fst kv) (lit "title")) ps) <= 1)%nat ->
  (length (filter (fun kv => str_eqb (fst kv) (lit "text")) ps) <= 1)%nat ->
  noteCondition ps = true <-> (MAX_PARAMS < length (filter notReserved ps))%nat.
Proof.
  intros Ht Hx; unfold noteCondition; rewrite Z.ltb_lt.
  pose proof (notReserved_count ps) as Hcount.
  pose proof (searchHas_filter (lit "title") ps) as H1.
  pose proof (searchHas_filter (lit "text") ps) as H2.
  destruct (searchHas (lit "title") ps), (searchHas (lit "text") ps);
    split; intros H; try lia.
  all: try (assert (length (filter (fun kv => str_eqb (fst kv) (lit "title")) ps) = 0)%nat
              by (destruct (length (filter (fun kv => str_eqb (fst kv) (lit "title")) ps));
                  [reflexivity | exfalso; assert (false = true) by (apply H1; lia);
                                 discriminate])).
  all: try (assert (length (filter (fun kv => str_eqb (fst kv) (lit "text")) ps) = 0)%nat
              by (destruct (length (filter (fun kv => str_eqb (fst kv) (lit "text")) ps));
                  [reflexivity | exfalso; assert (false = true) by (apply H2; lia);
                                 discriminate])).
  all: try (assert (0 < length (filter (fun kv => str_eqb (fst kv) (lit "title")) ps))%nat
              by (apply H1; reflexivity)).
  all: try (assert (0 < length (filter (fun kv => str_eqb (fst kv) (lit "text")) ps))%nat
              by (apply H2; reflexivity)).
  all: lia.
Qed.

(** C3 at the query [?title=a&title=b&k=1&...&k=1] with fifty entries
    [k=1]: fifty parameters are not reserved, all fifty are listed, and the
    note that only the first fifty are shown is drawn all the same, because
    the second title is counted with them. *)
Theorem note_counts_repeated_title :
  length (filter notReserved paramsTwoTitles) = 50%nat
  /\ extraParams paramsTwoTitles = filter notReserved paramsTwoTitles
  /\ noteCondition paramsTwoTitles = true
  /\ extraCalls paramsTwoTitles
     = [DrawSectionHeader (lit "Extra information");
        DrawWrapped noteText; MoveY lineHeight]
       ++ map (fun kv => DrawWrapped (paramLine kv))
              (filter notReserved paramsTwoTitles)
       ++ [MoveY lineHeight]
  /\ firstn 4 (drawnTexts (snd (render stdLib stdFont stdFontBold false
                                       (requestOf paramsTwoTitles))))
     = [lit "a"; lit "Extra information"; noteText; lit "k = 1"].
Proof.
  split; [reflexivity |].
  split; [reflexivity |].
  split; [reflexivity |].
  split; vm_compute; reflexivity.
Qed.

(* ================================================================== *)
(** * Part III: further properties of the worker                       *)
(* ================================================================== *)

(** ** processText and the glyph fallback, continued *)

Lemma transliterate_length (c : N) :
  (1 <= length (transliterate c) <= 2)%nat.
Proof.
  unfold transliterate.
  destruct (arabicToLatin c) as [[|x r]|] eqn:H; try (cbn; lia).
  unfold arabicToLatin in H.
  repeat match type of H with
         | match ?p with _ => _ end = _ => destruct p
         end; try discriminate; inversion H; cbn; lia.
Qed.

(** X1: without Unicode support [processText] returns printable ASCII
    only, processing twice is processing once, and a text of printable ASCII
    is returned as it is, with or without Unicode support. *)
Theorem processText_ascii_idempotent (text : jsstring) :
  forallb printable (processText false text) = true
  /\ processText false (processText false text) = processText false text
  /\ (forall useUnicode,
         forallb printable text = true -> processText useUnicode text = text).
Proof.
  split; [apply processText_printable |].
  split; [apply processText_id, processText_printable |].
  intros useUnicode; apply processText_id.
Qed.

Lemma processText_length_aux (useUnicode : bool) (text : jsstring) :
  (length text <= length (processText useUnicode text) <= 2 * length text)%nat.
Proof.
  unfold processText.
  destruct (truthy text); cbn [negb]; [|lia].
  destruct useUnicode; [lia |].
  induction text as [|c rest IH]; [cbn; lia |].
  cbn [flat_map]; rewrite length_app; cbn [length].
  destruct (printable c); [cbn [length]; lia |].
  pose proof (transliterate_length c); lia.
Qed.

(** X2: [processText] never shortens a text and at most doubles it: every
    code unit is kept or replaced by one or two characters. *)
Theorem processText_length (useUnicode : bool) (text : jsstring) :
  (length text <= length (processText useUnicode text) <= 2 * length text)%nat.
Proof. apply processText_length_aux. Qed.

(** X3: the glyph fallback keeps the length of a text, returns printable
    ASCII, changes nothing when applied again, and leaves a text unchanged
    exactly when the text is printable ASCII already. *)
Theorem asciiFallback_facts (s : jsstring) :
  length (asciiFallback s) = length s
  /\ forallb printable (asciiFallback s) = true
  /\ asciiFallback (asciiFallback s) = asciiFallback s
  /\ (asciiFallback s = s <-> forallb printable s = true).
Proof.
  split; [apply length_map |].
  split; [apply asciiFallback_printable |].
  split; [apply asciiFallback_id, asciiFallback_printable |].
  split; [|apply asciiFallback_id].
  intros H; rewrite <- H; apply asciiFallback_printable.
Qed.

(** ** wrapText, continued *)

Lemma splitRuns_content (s : jsstring) :
  forall inRun, filter nonSpace (concat (splitRuns inRun s)) = filter nonSpace s.
Proof.
  induction s as [|c rest IH]; intros inRun; [reflexivity |].
  cbn [splitRuns filter]; unfold nonSpace at 2.
  destruct (isSpace c) eqn:Hc; cbn [negb].
  - destruct inRun; [apply IH |]. cbn [concat app]; apply IH.
  - specialize (IH false).
    destruct (splitRuns false rest) as [|w ws]; cbn [concat app filter] in *;
      unfold nonSpace at 1; rewrite Hc; cbn [negb]; f_equal; exact IH.
Qed.

Lemma codePoints_concat (s : jsstring) : concat (codePoints s) = s.
Proof.
  assert (H : forall n (s : jsstring), (length s <= n)%nat ->
                                       concat (codePoints s) = s).
  { induction n as [|n IH]; intros [|c rest] Hlen; try reflexivity.
    - cbn in Hlen; lia.
    - cbn [length] in Hlen; cbn [codePoints].
      destruct rest as [|d rest']; [reflexivity |].
      cbn [length] in Hlen.
      destruct (isHighSurrogate c && isLowSurrogate d); cbn [concat app];
        rewrite IH by (cbn [length]; lia); reflexivity. }
  apply (H (length s)); lia.
Qed.

Lemma pushIf_concat (lines : list jsstring) (s : jsstring) :
  concat (pushIf lines s) = concat lines ++ s.
Proof.
  unfold pushIf; destruct s as [|c s]; cbn [truthy].
  - rewrite app_nil_r; reflexivity.
  - rewrite concat_app; cbn [concat]; rewrite app_nil_r; reflexivity.
Qed.

Section WrapContent.
Variables (fnt : Font) (size : Z) (maxWidth : Q).

Lemma hardSplit_concat (chs : list jsstring) :
  forall lines chunk,
    concat (fst (hardSplit fnt size maxWidth chs lines chunk))
    ++ snd (hardSplit fnt size maxWidth chs lines chunk)
    = concat lines ++ chunk ++ concat chs.
Proof.
  induction chs as [|ch rest IH]; intros lines chunk; cbn [hardSplit].
  - cbn [fst snd concat]; rewrite app_nil_r; reflexivity.
  - destruct (fits fnt size maxWidth (chunk ++ ch)); rewrite IH; cbn [concat].
    + rewrite <- !app_assoc; reflexivity.
    + rewrite pushIf_concat, <- !app_assoc; reflexivity.
Qed.

Lemma wrapWords_content (words : list jsstring) :
  forall lines current,
    filter nonSpace (concat (wrapWords fnt size maxWidth words lines current))
    = filter nonSpace (concat lines ++ current ++ concat words).
Proof.
  induction words as [|w rest IH]; intros lines current.
  - cbn [wrapWords concat]; rewrite pushIf_concat, app_nil_r; reflexivity.
  - rewrite wrapWords_cons; cbn [concat].
    destruct (fits fnt size maxWidth _).
    + rewrite IH; destruct (truthy current) eqn:Hc.
      * rewrite !filter_app.
        change (filter nonSpace space) with (@nil N); cbn [app].
        rewrite <- !app_assoc; reflexivity.
      * destruct current; [reflexivity | discriminate].
    + rewrite IH.
      rewrite (app_assoc (concat _)), hardSplit_concat.
      rewrite pushIf_concat, codePoints_concat, <- !app_assoc; reflexivity.
Qed.

Lemma pushIf_truthy (lines : list jsstring) (s : jsstring) :
  Forall (fun l => truthy l = true) lines ->
  Forall (fun l => truthy l = true) (pushIf lines s).
Proof.
  intros H; unfold pushIf; destruct (truthy s) eqn:Hs; [|exact H].
  apply Forall_app; split; [exact H | repeat constructor; exact Hs].
Qed.

Lemma hardSplit_truthy (chs : list jsstring) :
  forall lines chunk,
    Forall (fun l => truthy l = true) lines ->
    Forall (fun l => truthy l = true)
           (fst (hardSplit fnt size maxWidth chs lines chunk)).
Proof.
  induction chs as [|ch rest IH]; intros lines chunk H; cbn [hardSplit];
    [exact H |].
  destruct (fits fnt size maxWidth (chunk ++ ch)); apply IH;
    [exact H | apply pushIf_truthy; exact H].
Qed.

Lemma wrapWords_truthy (words : list jsstring) :
  forall lines current,
    Forall (fun l => truthy l = true) lines ->
    Forall (fun l => truthy l = true)
           (wrapWords fnt size maxWidth words lines current).
Proof.
  induction words as [|w rest IH]; intros lines current H.
  - apply pushIf_truthy; exact H.
  - rewrite wrapWords_cons.
    destruct (fits fnt size maxWidth _); apply IH; [exact H |].
    apply hardSplit_truthy, pushIf_truthy; exact H.
Qed.

Lemma wrapWords_empty_words (words : list jsstring) :
  existsb truthy words = false ->
  wrapWords fnt size maxWidth words [] [] = [].
Proof.
  induction words as [|w rest IH]; intros H; [reflexivity |].
  cbn [existsb] in H; apply orb_false_iff in H as [Hw Hrest].
  destruct w; [|discriminate].
  rewrite wrapWords_cons; cbn [truthy codePoints hardSplit pushIf fst snd].
  destruct (fits fnt size maxWidth []); apply IH; exact Hrest.
Qed.
End WrapContent.

Lemma splitRuns_word_inv (s : jsstring) :
  forall inRun,
    existsb truthy (splitRuns inRun s) = true ->
    existsb nonSpace s = true.
Proof.
  induction s as [|c rest IH]; intros inRun H; [discriminate |].
  cbn [existsb splitRuns] in *; unfold nonSpace at 1.
  destruct (isSpace c); cbn [negb orb]; [|reflexivity].
  destruct inRun; [exact (IH _ H) |].
  cbn [existsb truthy orb] in H; exact (IH _ H).
Qed.

Lemma wrapText_content_aux (useUnicode : bool) (text : jsstring)
      (maxWidth : Q) (fnt : Font) (size : Z) :
  filter nonSpace (concat (wrapText useUnicode text maxWidth fnt size))
  = filter nonSpace (processText useUnicode text).
Proof.
  unfold wrapText, splitWhitespace.
  rewrite wrapWords_content; cbn [concat app].
  apply splitRuns_content.
Qed.

(** X4: [wrapText] keeps the text: the lines, read one after the other
    without their white space, are the processed text without its white
    space.  No character is lost, added or moved, also in a hard split. *)
Theorem wrapText_keeps_content (useUnicode : bool) (text : jsstring)
        (maxWidth : Q) (fnt : Font) (size : Z) :
  filter nonSpace (concat (wrapText useUnicode text maxWidth fnt size))
  = filter nonSpace (processText useUnicode text).
Proof. apply wrapText_content_aux. Qed.

Lemma wrapText_lines_truthy (useUnicode : bool) (text : jsstring)
      (maxWidth : Q) (fnt : Font) (size : Z) (line : jsstring) :
  In line (wrapText useUnicode text maxWidth fnt size) -> truthy line = true.
Proof.
  intros Hin.
  pose proof (wrapWords_truthy fnt size maxWidth
                (splitWhitespace (processText useUnicode text)) [] []
                (Forall_nil _)) as H.
  rewrite Forall_forall in H; exact (H line Hin).
Qed.

(** X5: [wrapText] never returns an empty line, and it returns no line at
    all exactly when the processed text is empty or white space only. *)
Theorem wrapText_no_empty_line (useUnicode : bool) (text : jsstring)
        (maxWidth : Q) (fnt : Font) (size : Z) :
  (forall line,
      In line (wrapText useUnicode text maxWidth fnt size) -> line <> [])
  /\ (wrapText useUnicode text maxWidth fnt size = []
      <-> forallb isSpace (processText useUnicode text) = true).
Proof.
  split.
  - intros line Hin Hnil; subst line.
    apply wrapText_lines_truthy in Hin; discriminate.
  - assert (Hspace : forallb isSpace (processText useUnicode text) = true
                     <-> existsb nonSpace (processText useUnicode text) = false).
    { induction (processText useUnicode text) as [|c s IH]; [tauto |].
      cbn [forallb existsb]; unfold nonSpace at 1.
      destruct (isSpace c); cbn [negb andb orb]; [exact IH | split; discriminate]. }
    rewrite Hspace; split.
    + intros Hnil.
      destruct (existsb nonSpace (processText useUnicode text)) eqn:He;
        [|reflexivity].
      exfalso; apply (wrapText_nonempty useUnicode text maxWidth fnt size);
        [|exact Hnil].
      apply splitRuns_word; exact He.
    + intros He; unfold wrapText; apply wrapWords_empty_words.
      destruct (existsb truthy (splitWhitespace (processText useUnicode text)))
        eqn:Hw; [|reflexivity].
      apply splitRuns_word_inv in Hw; rewrite He in Hw; discriminate.
Qed.

Lemma codePoints_single (s : jsstring) :
  Forall singleCharacter (codePoints s).
Proof.
  assert (H : forall n (s : jsstring), (length s <= n)%nat ->
              Forall singleCharacter (codePoints s)).
  { induction n as [|n IH]; intros [|c rest] Hlen; try (constructor; fail).
    - cbn in Hlen; lia.
    - cbn [length] in Hlen; cbn [codePoints].
      destruct rest as [|d rest'];
        [constructor; [left; exists c; reflexivity | constructor] |].
      cbn [length] in Hlen.
      destruct (isHighSurrogate c && isLowSurrogate d) eqn:Hpair; constructor.
      + apply andb_true_iff in Hpair as [Hc Hd].
        right; exists c, d; repeat split; assumption.
      + apply IH; lia.
      + left; exists c; reflexivity.
      + apply IH; cbn [length]; lia. }
  apply (H (length s)); lia.
Qed.

(** X6: when the font cannot measure any text and the width is estimated
    at 0.6 em per code unit, wrapping still ends with short lines: a line of
    n code units has 6 n size <= 10 maxWidth, or is a single character, one
    code point of a word of the processed text. *)
Theorem wrapText_estimated_lines (useUnicode : bool) (text : jsstring)
        (maxWidth : Z) (fnt : Font) (size : Z) :
  (forall t, widthOfTextAtSize fnt t size = None) ->
  forall line,
    In line (wrapText useUnicode text (inject_Z maxWidth) fnt size) ->
    6 * (Z.of_nat (length line) * size) <= 10 * maxWidth
    \/ (singleCharacter line
        /\ exists w,
            In w (splitWhitespace (processText useUnicode text))
            /\ In line (codePoints w)).
Proof.
  intros Hnone line Hin.
  destruct (wrapText_line_cases _ _ _ _ _ _ Hin) as [Hfit | [w [Hw Hcp]]].
  - left; apply fits_le in Hfit.
    unfold textWidth in Hfit; rewrite Hnone in Hfit.
    unfold Qle in Hfit; cbn in Hfit; lia.
  - right; split; [|exists w; split; assumption].
    pose proof (codePoints_single w) as H.
    rewrite Forall_forall in H; exact (H line Hcp).
Qed.

(** With a font that cannot measure, at size 12 and width 5 the text
    "W i" is wrapped into the lines "W" and "i": each is estimated at 7.2,
    wider than 5, and each is a single character of the text. *)
Lemma wrapText_estimated_lines_witness :
  wrapText false (lit "W i") (inject_Z 5) brokenFont 12 = [lit "W"; lit "i"]
  /\ (6 * (Z.of_nat (length (lit "W")) * 12) <= 10 * 5
      \/ (singleCharacter (lit "W")
          /\ exists w,
              In w (splitWhitespace (processText false (lit "W i")))
              /\ In (lit "W") (codePoints w))).
Proof.
  split; [reflexivity |].
  apply (wrapText_estimated_lines false (lit "W i") 5 brokenFont 12).
  - intros t; reflexivity.
  - vm_compute; tauto.
Defined.

Section WrapChars.
Variables (fnt : Font) (size : Z) (maxWidth : Q).
Variable C : N -> Prop.
Hypothesis C_space : C 0x20%N.

Lemma splitRuns_chars (s : jsstring) :
  forall inRun, Forall C s -> Forall (Forall C) (splitRuns inRun s).
Proof.
  induction s as [|c rest IH]; intros inRun Hs; [repeat constructor |].
  apply Forall_cons_iff in Hs as [Hc Hrest]; cbn [splitRuns].
  destruct (isSpace c).
  - destruct inRun; [apply IH; exact Hrest |].
    constructor; [constructor | apply IH; exact Hrest].
  - specialize (IH false Hrest).
    destruct (splitRuns false rest) as [|w ws]; [repeat constructor; exact Hc |].
    apply Forall_cons_iff in IH as [Hw Hws].
    constructor; [constructor; assumption | exact Hws].
Qed.

Lemma codePoints_chars (w : jsstring) :
  Forall C w -> Forall (Forall C) (codePoints w).
Proof. intros H; apply Forall_concat; rewrite codePoints_concat; exact H. Qed.

Lemma pushIf_chars (lines : list jsstring) (s : jsstring) :
  Forall (Forall C) lines -> Forall C s -> Forall (Forall C) (pushIf lines s).
Proof.
  intros Hl Hs; unfold pushIf; destruct (truthy s); [|exact Hl].
  apply Forall_app; split; [exact Hl | repeat constructor; exact Hs].
Qed.

Lemma hardSplit_chars (chs : list jsstring) :
  forall lines chunk,
    Forall (Forall C) chs -> Forall (Forall C) lines -> Forall C chunk ->
    Forall (Forall C) (fst (hardSplit fnt size maxWidth chs lines chunk))
    /\ Forall C (snd (hardSplit fnt size maxWidth chs lines chunk)).
Proof.
  induction chs as [|ch rest IH]; intros lines chunk Hchs Hl Hc;
    cbn [hardSplit]; [split; assumption |].
  apply Forall_cons_iff in Hchs as [Hch Hrest].
  destruct (fits fnt size maxWidth (chunk ++ ch)); apply IH; auto.
  - apply Forall_app; split; assumption.
  - apply pushIf_chars; assumption.
Qed.

Lemma wrapWords_chars (words : list jsstring) :
  forall lines current,
    Forall (Forall C) words -> Forall (Forall C) lines -> Forall C current ->
    Forall (Forall C) (wrapWords fnt size maxWidth words lines current).
Proof.
  induction words as [|w rest IH]; intros lines current Hw Hl Hc.
  - apply pushIf_chars; assumption.
  - apply Forall_cons_iff in Hw as [Hw Hrest]; rewrite wrapWords_cons.
    destruct (fits fnt size maxWidth _).
    + apply IH; auto.
      destruct (truthy current); [|exact Hw].
      apply Forall_app; split; [exact Hc |].
      apply Forall_app; split; [repeat constructor; exact C_space | exact Hw].
    + destruct (hardSplit_chars (codePoints w) (pushIf lines current) [])
        as [H1 H2]; auto using codePoints_chars, pushIf_chars.
Qed.
End WrapChars.

(** Every code unit of a line of [wrapText] is a code unit of the
    processed text or the space U+0020. *)
Lemma wrapText_chars (useUnicode : bool) (text : jsstring) (maxWidth : Q)
      (fnt : Font) (size : Z) (line : jsstring) (c : N) :
  In line (wrapText useUnicode text maxWidth fnt size) ->
  In c line ->
  c = 0x20%N \/ In c (processText useUnicode text).
Proof.
  intros Hline Hc.
  set (C := fun c => c = 0x20%N \/ In c (processText useUnicode text)).
  assert (Hwords : Forall (Forall C)
                          (splitWhitespace (processText useUnicode text))).
  { apply splitRuns_chars, Forall_forall; intros x Hx; right; exact Hx. }
  pose proof (wrapWords_chars fnt size maxWidth C (or_introl eq_refl)
                _ [] [] Hwords (Forall_nil _) (Forall_nil _)) as H.
  rewrite Forall_forall in H; specialize (H line Hline).
  rewrite Forall_forall in H; exact (H c Hc).
Qed.

Lemma wrapText_printable (text : jsstring) (maxWidth : Q) (fnt : Font)
      (size : Z) (line : jsstring) :
  In line (wrapText false text maxWidth fnt size) ->
  forallb printable line = true.
Proof.
  intros Hline; apply forallb_forall; intros c Hc.
  destruct (wrapText_chars _ _ _ _ _ _ _ Hline Hc) as [-> | Hin]; [reflexivity |].
  pose proof (processText_printable text) as Hp.
  rewrite forallb_forall in Hp; exact (Hp c Hin).
Qed.

Lemma drawnTexts_In (st : LayoutState) (t : jsstring) :
  In t (drawnTexts st) -> exists page opts, In (EvDrawText page t opts) (log st).
Proof.
  unfold drawnTexts; rewrite in_flat_map; intros [ev [Hin Ht]].
  apply in_rev in Hin.
  destruct ev; cbn in Ht; try contradiction.
  destruct Ht as [-> | []]; eauto.
Qed.

Section AsciiOnly.
Variables (lib : PdfLib) (font fontBold : Font).

Ltac ascii_goal :=
  repeat first [ apply Forall_cons | assumption ]; cbn [asciiEvent];
  auto using asciiFallback_printable, processText_printable.

Lemma drawLine_ascii x size fnt line st :
  forallb printable line = true ->
  Forall asciiEvent (log st) ->
  Forall asciiEvent (log (snd (drawLine lib x size fnt line st))).
Proof.
  intros Hl H; unfold_layout; repeat break_match; cbn [snd log]; ascii_goal.
Qed.

Lemma drawTitle_ascii text st :
  Forall asciiEvent (log st) ->
  Forall asciiEvent (log (snd (drawTitle lib fontBold false text st))).
Proof.
  intros H; unfold_layout; repeat break_match; cbn [snd log]; ascii_goal.
Qed.

Lemma drawSectionHeader_ascii text st :
  Forall asciiEvent (log st) ->
  Forall asciiEvent (log (snd (drawSectionHeader lib fontBold false text st))).
Proof.
  intros H; unfold_layout; repeat break_match; cbn [snd log]; ascii_goal.
Qed.

Lemma run_ascii calls st :
  Forall asciiEvent (log st) ->
  Forall asciiEvent (log (snd (run lib font fontBold false calls st))).
Proof.
  unfold run.
  apply (forEach_preserves (fun s => Forall asciiEvent (log s))).
  intros c s _ Hs; destruct c as [text | text | text | k]; cbn [exec].
  - apply drawTitle_ascii; exact Hs.
  - apply drawSectionHeader_ascii; exact Hs.
  - unfold drawWrapped.
    apply (forEach_preserves (fun s => Forall asciiEvent (log s))); [|exact Hs].
    intros line s' Hin Hs'; apply drawLine_ascii; [|exact Hs'].
    exact (wrapText_printable _ _ _ _ _ Hin).
  - unfold_layout; cbn [snd log]; ascii_goal.
Qed.
End AsciiOnly.

(** X7: the handler never turns Unicode support on, and whatever the
    request and the library, every text it hands to [drawText] successfully
    consists of printable ASCII characters only. *)
Theorem handler_draws_ascii (lib : PdfLib) (req : Request)
        (font fontBold : Font) (useUnicode : bool) :
  embedFonts lib = Ok (font, fontBold, useUnicode) ->
  useUnicode = false
  /\ forall t,
      In t (drawnTexts (snd (render lib font fontBold useUnicode req))) ->
      forallb printable t = true.
Proof.
  intros Hfonts.
  assert (Hu : useUnicode = false).
  { unfold embedFonts, embedStandard in Hfonts.
    destruct (embedFont lib Helvetica); [|discriminate].
    destruct (embedFont lib HelveticaBold); [|discriminate].
    inversion Hfonts; reflexivity. }
  split; [exact Hu |]; subst useUnicode.
  intros t Ht; apply drawnTexts_In in Ht as [page [opts Hin]].
  assert (H : Forall asciiEvent (log (snd (render lib font fontBold false req)))).
  { unfold render; apply run_ascii; repeat constructor. }
  rewrite Forall_forall in H; exact (H _ Hin).
Qed.

(** The request [?title=] followed by five Arabic letters is drawn with
    the title "MRHBA", which is printable ASCII. *)
Lemma handler_draws_ascii_witness :
  embedFonts stdLib = Ok (stdFont, stdFontBold, false)
  /\ forallb printable (lit "MRHBA") = true.
Proof.
  split; [reflexivity |].
  apply (proj2 (handler_draws_ascii stdLib
                  (requestOf [(lit "title", arabicTitle)])
                  stdFont stdFontBold false eq_refl)).
  vm_compute; tauto.
Defined.

(** ** The layout, continued *)

Section Stacking.
Variables (lib : PdfLib) (font fontBold : Font) (useUnicode : bool).

Ltac stack_goal :=
  unfold stackInv in *; cbn [y log pageCount fst snd drawPositions flat_map app
                             opt_y stacked headAbove] in *;
  repeat match goal with
         | H : _ /\ _ |- _ => destruct H
         | H : (_ <? _) = true |- _ => apply Z.ltb_lt in H
         | H : (_ <? _) = false |- _ => apply Z.ltb_ge in H
         end;
  repeat match goal with
         | |- context [flat_map ?f (log ?s)] =>
             change (flat_map f (log s)) with (drawPositions (log s))
         end;
  try change (lineHeight * 3 / 2) with 27;
  unfold lineHeight in *;
  repeat match goal with
         | |- _ /\ _ => split
         end;
  try assumption; try exact I;
  try (destruct (drawPositions (log _)) as [|[? ?] ?];
       cbn [headAbove fst snd] in *; try exact I; lia);
  try lia.

Lemma drawLine_stack x size fnt line st :
  stackInv st -> stackInv (snd (drawLine lib x size fnt line st)).
Proof. intros H; unfold_layout; repeat break_match; stack_goal. Qed.

Lemma drawTitle_stack text st :
  stackInv st -> stackInv (snd (drawTitle lib fontBold useUnicode text st)).
Proof. intros H; unfold_layout; repeat break_match; stack_goal. Qed.

Lemma drawSectionHeader_stack text st :
  stackInv st ->
  stackInv (snd (drawSectionHeader lib fontBold useUnicode text st)).
Proof. intros H; unfold_layout; repeat break_match; stack_goal. Qed.

Lemma moveY_stack k st :
  0 <= k -> stackInv st -> stackInv (snd (moveY k st)).
Proof. intros Hk H; unfold moveY, setY; stack_goal. Qed.

Lemma run_stack calls st :
  Forall movesDown calls -> stackInv st ->
  stackInv (snd (run lib font fontBold useUnicode calls st)).
Proof.
  intros Hdown Hst; unfold run.
  apply (forEach_preserves stackInv); [|exact Hst].
  intros c s Hin Hs.
  rewrite Forall_forall in Hdown; specialize (Hdown c Hin).
  destruct c as [text | text | text | k]; cbn [exec movesDown] in *.
  - apply drawTitle_stack; exact Hs.
  - apply drawSectionHeader_stack; exact Hs.
  - unfold drawWrapped; apply (forEach_preserves stackInv); [|exact Hs].
    intros; apply drawLine_stack; assumption.
  - apply moveY_stack; assumption.
Qed.
End Stacking.

(** X8: texts never overlap and no page is revisited: every text of a
    request is drawn on a later page than the text drawn before it, or on
    the same page at least one line height below it. *)
Theorem draws_stacked (lib : PdfLib) (font fontBold : Font)
        (useUnicode : bool) (req : Request) :
  stacked (drawPositions (log (snd (render lib font fontBold useUnicode req)))).
Proof.
  unfold render.
  apply (run_stack lib font fontBold useUnicode (pageCalls useUnicode req)
                   (initialState lib)).
  - apply pageCalls_movesDown.
  - split; exact I.
Qed.

Section PagesOfLog.
Variables (lib : PdfLib) (font fontBold : Font) (useUnicode : bool).

Lemma onPages_mono (n m : nat) (evs : list Event) :
  (n <= m)%nat -> Forall (onPages n) evs -> Forall (onPages m) evs.
Proof.
  intros Hnm H; eapply Forall_impl; [|exact H].
  intros [| |page text opts|v]; cbn [onPages]; try tauto; lia.
Qed.

Ltac page_goal :=
  unfold pageInv in *; cbn [y log pageCount fst snd] in *;
  repeat match goal with
         | H : _ /\ _ |- _ => destruct H
         end;
  repeat match goal with
         | |- _ /\ _ => split
         end;
  cbn [addedPages filter length painted] in *;
  try assumption;
  try (unfold addedPages in *; cbn [filter length]; congruence);
  repeat (apply Forall_cons; cbn [onPages]; try exact I);
  try (eapply onPages_mono; [|eassumption]; lia);
  try assumption.

Lemma drawLine_pages x size fnt line st :
  (1 <= pageCount st)%nat /\ pageInv st ->
  (1 <= pageCount (snd (drawLine lib x size fnt line st)))%nat
  /\ pageInv (snd (drawLine lib x size fnt line st)).
Proof.
  intros [Hpos H]; unfold_layout; repeat break_match;
    (split; [cbn [snd pageCount]; lia |]); page_goal; lia.
Qed.

Lemma drawTitle_pages text st :
  (1 <= pageCount st)%nat /\ pageInv st ->
  (1 <= pageCount (snd (drawTitle lib fontBold useUnicode text st)))%nat
  /\ pageInv (snd (drawTitle lib fontBold useUnicode text st)).
Proof.
  intros [Hpos H]; unfold_layout; repeat break_match;
    (split; [cbn [snd pageCount]; lia |]); page_goal; lia.
Qed.

Lemma drawSectionHeader_pages text st :
  (1 <= pageCount st)%nat /\ pageInv st ->
  (1 <= pageCount (snd (drawSectionHeader lib fontBold useUnicode text st)))%nat
  /\ pageInv (snd (drawSectionHeader lib fontBold useUnicode text st)).
Proof.
  intros [Hpos H]; unfold_layout; repeat break_match;
    (split; [cbn [snd pageCount]; lia |]); page_goal; lia.
Qed.

Lemma run_pages calls st :
  (1 <= pageCount st)%nat /\ pageInv st ->
  (1 <= pageCount (snd (run lib font fontBold useUnicode calls st)))%nat
  /\ pageInv (snd (run lib font fontBold useUnicode calls st)).
Proof.
  intros Hst; unfold run.
  apply (forEach_preserves (fun s => (1 <= pageCount s)%nat /\ pageInv s));
    [|exact Hst].
  intros c s _ Hs.
  destruct c as [text | text | text | k]; cbn [exec].
  - apply drawTitle_pages; exact Hs.
  - apply drawSectionHeader_pages; exact Hs.
  - unfold drawWrapped.
    apply (forEach_preserves (fun s => (1 <= pageCount s)%nat /\ pageInv s));
      [|exact Hs].
    intros; apply drawLine_pages; assumption.
  - destruct Hs as [Hpos H]; unfold moveY, setY; split; [exact Hpos |].
    page_goal.
Qed.
End PagesOfLog.

(** X9: the page count of the layout is the number of pages added to the
    document, every added page is painted white before anything else
    happens, and every text is drawn on a page the document has. *)
Theorem pages_accounted (lib : PdfLib) (font fontBold : Font)
        (useUnicode : bool) (req : Request) :
  pageCount (snd (render lib font fontBold useUnicode req))
  = addedPages (log (snd (render lib font fontBold useUnicode req)))
  /\ painted (log (snd (render lib font fontBold useUnicode req)))
  /\ (forall page text opts,
         In (EvDrawText page text opts)
            (log (snd (render lib font fontBold useUnicode req))) ->
         (1 <= page <= pageCount (snd (render lib font fontBold useUnicode req)))%nat).
Proof.
  destruct (run_pages lib font fontBold useUnicode (pageCalls useUnicode req)
                      (initialState lib)) as [_ [H1 [H2 H3]]].
  { split; [cbn; lia |].
    split; [reflexivity | split; [exact I | repeat constructor]]. }
  split; [exact H1 | split; [exact H2 |]].
  intros page text opts Hin; rewrite Forall_forall in H3.
  exact (H3 _ Hin).
Qed.

(** ** What drawWrapped draws *)

Section DrawnLines.
Variables (lib : PdfLib) (font fontBold : Font) (useUnicode : bool).

Ltac drawn_goal :=
  unfold drawnTexts; cbn [fst snd log rev];
  rewrite ?flat_map_app; cbn [flat_map eventText app];
  rewrite ?app_nil_r, <- ?app_assoc; cbn [app];
  first [ left; split; [reflexivity |]; eexists; split; [reflexivity |];
          first [left; reflexivity | right; reflexivity]
        | right; eexists; split; reflexivity ].

Lemma drawLine_drawn x size fnt line st :
  (fst (drawLine lib x size fnt line st) = Ok tt
   /\ exists d,
       drawnTexts (snd (drawLine lib x size fnt line st)) = drawnTexts st ++ [d]
       /\ drawnAs line d)
  \/ (exists e,
        fst (drawLine lib x size fnt line st) = Throw e
        /\ drawnTexts (snd (drawLine lib x size fnt line st)) = drawnTexts st).
Proof. unfold drawnAs; unfold_layout; repeat break_match; drawn_goal. Qed.

Lemma drawSectionHeader_drawn text st :
  (fst (drawSectionHeader lib fontBold useUnicode text st) = Ok tt
   /\ exists d,
       drawnTexts (snd (drawSectionHeader lib fontBold useUnicode text st))
       = drawnTexts st ++ [d]
       /\ drawnAs (processText useUnicode text) d)
  \/ (exists e,
        fst (drawSectionHeader lib fontBold useUnicode text st) = Throw e
        /\ drawnTexts (snd (drawSectionHeader lib fontBold useUnicode text st))
           = drawnTexts st).
Proof. unfold drawnAs; unfold_layout; repeat break_match; drawn_goal. Qed.

Lemma drawLines_drawn x size fnt (lines : list jsstring) :
  forall st,
  exists drawn,
    drawnTexts (snd (forEach (drawLine lib x size fnt) lines st))
    = drawnTexts st ++ drawn
    /\ Forall2 drawnAs (firstn (length drawn) lines) drawn
    /\ (length drawn <= length lines)%nat
    /\ (fst (forEach (drawLine lib x size fnt) lines st) = Ok tt ->
        length drawn = length lines).
Proof.
  induction lines as [|line rest IH]; intros st.
  - exists []; cbn [forEach ret fst snd length firstn].
    rewrite app_nil_r.
    split; [reflexivity |]; split; [constructor |]; split; [lia | reflexivity].
  - cbn [forEach]; unfold bind.
    destruct (drawLine_drawn x size fnt line st) as [[Hok [d [Hd Has]]] | [e [He Hd]]].
    + destruct (drawLine lib x size fnt line st) as [r st1]; cbn [fst snd] in *.
      subst r; destruct (IH st1) as [drawn [H1 [H2 [H3 H4]]]].
      exists (d :: drawn); rewrite H1, Hd, <- app_assoc; cbn [app length firstn].
      split; [reflexivity |]; split; [constructor; assumption |].
      split; [lia | intros Hok; rewrite (H4 Hok); reflexivity].
    + destruct (drawLine lib x size fnt line st) as [r st1]; cbn [fst snd] in *.
      subst r; exists []; cbn [fst snd length firstn]; rewrite app_nil_r.
      split; [exact Hd |]; split; [constructor |]; split; [lia | discriminate].
Qed.
End DrawnLines.

(** X10: [drawWrapped] draws the lines of [wrapText] in order, each as
    the line itself or as its glyph fallback, and nothing else: all of them
    when it returns normally, the first few of them when page allocation or
    a fallback draw throws. *)
Theorem drawWrapped_draws_lines (lib : PdfLib) (useUnicode : bool)
        (text : jsstring) (x : Z) (maxWidth : Q) (size : Z) (fnt : Font)
        (st : LayoutState) :
  exists drawn,
    drawnTexts (snd (drawWrapped lib useUnicode text x maxWidth size fnt st))
    = drawnTexts st ++ drawn
    /\ Forall2 drawnAs
               (firstn (length drawn) (wrapText useUnicode text maxWidth fnt size))
               drawn
    /\ (length drawn <= length (wrapText useUnicode text maxWidth fnt size))%nat
    /\ (fst (drawWrapped lib useUnicode text x maxWidth size fnt st) = Ok tt ->
        length drawn = length (wrapText useUnicode text maxWidth fnt size)).
Proof. unfold drawWrapped; apply drawLines_drawn. Qed.

(** ** The end of the page *)

Lemma pageCalls_disclaimer (useUnicode : bool) (req : Request) :
  (exists pre,
      pageCalls useUnicode req
      = pre ++ [DrawSectionHeader (lit "Disclaimer");
                DrawWrapped (pageDisclaimer useUnicode req)])
  /\ hasWord useUnicode (pageDisclaimer useUnicode req) = true.
Proof.
  unfold pageCalls, pageDisclaimer; destruct (params req) as [|p ps].
  - split; [|destruct useUnicode; reflexivity].
    exists (firstn 19 (instructionsCalls useUnicode req)); reflexivity.
  - split; [|destruct useUnicode; reflexivity].
    unfold echoCalls.
    exists ([DrawTitle (titleParam (p :: ps))] ++ textCalls (p :: ps)
            ++ extraCalls (p :: ps)).
    rewrite <- !app_assoc; reflexivity.
Qed.

Lemma drawnAs_printable (lines drawn : list jsstring) :
  Forall (fun l => forallb printable l = true) lines ->
  Forall2 drawnAs lines drawn -> drawn = lines.
Proof.
  intros Hp H; induction H as [|l d ls ds Hd _ IH]; [reflexivity |].
  apply Forall_cons_iff in Hp as [Hl Hls].
  rewrite (IH Hls); f_equal.
  destruct Hd as [-> | ->]; [reflexivity | apply asciiFallback_id; exact Hl].
Qed.

(** X11: every page ends with the Disclaimer section, as the header
    comment of the worker promises: the last two calls of the page are the
    header "Disclaimer" and the wrapped disclaimer sentence of that page, and
    when no page allocation fails and the library draws printable ASCII, the
    drawing returns normally and the last texts drawn are the header
    "Disclaimer" followed by the one or more wrapped lines of that sentence,
    each as the line or its glyph fallback, and as the lines themselves when
    Unicode support is off. *)
Theorem disclaimer_drawn_last (lib : PdfLib) (font fontBold : Font)
        (useUnicode : bool) (req : Request) :
  (forall n, addPage lib n = None) ->
  (forall s opts, forallb printable s = true -> drawText lib s opts = None) ->
  fst (render lib font fontBold useUnicode req) = Ok tt
  /\ (exists pre,
         pageCalls useUnicode req
         = pre ++ [DrawSectionHeader (lit "Disclaimer");
                   DrawWrapped (pageDisclaimer useUnicode req)])
  /\ (exists before drawn,
         drawnTexts (snd (render lib font fontBold useUnicode req))
         = before ++ [lit "Disclaimer"] ++ drawn
         /\ drawn <> []
         /\ Forall2 drawnAs
                    (wrapText useUnicode (pageDisclaimer useUnicode req)
                              (maxTextWidth lib) font bodySize)
                    drawn
         /\ (useUnicode = false ->
             drawn = wrapText false (pageDisclaimer false req)
                              (maxTextWidth lib) font bodySize)).
Proof.
  intros Hpages Hglyphs.
  split; [unfold render; apply run_ok; assumption |].
  destruct (pageCalls_disclaimer useUnicode req) as [[pre Hcalls] Hword].
  split; [exists pre; exact Hcalls |].
  set (text := pageDisclaimer useUnicode req) in *.
  unfold render; rewrite Hcalls.
  assert (Hrun : forall st,
             run lib font fontBold useUnicode
                 (pre ++ [DrawSectionHeader (lit "Disclaimer"); DrawWrapped text]) st
             = (run lib font fontBold useUnicode pre ;;
                run lib font fontBold useUnicode
                    [DrawSectionHeader (lit "Disclaimer"); DrawWrapped text]) st)
    by (intros st; unfold run; apply forEach_app).
  rewrite Hrun; unfold bind at 1.
  pose proof (run_ok lib font fontBold useUnicode Hglyphs pre (initialState lib)
                     Hpages) as Hpre.
  destruct (run lib font fontBold useUnicode pre (initialState lib))
    as [r st1]; cbn [fst] in Hpre; subst r.
  unfold run; cbn [forEach exec]; unfold bind, ret.
  pose proof (drawSectionHeader_throw lib fontBold useUnicode Hglyphs
                (lit "Disclaimer") st1) as Hthrow.
  destruct (drawSectionHeader_drawn lib fontBold useUnicode (lit "Disclaimer") st1)
    as [[Hok [d [Hd Has]]] | [e [He _]]].
  2:{ destruct (Hthrow e He) as [n Hn]; rewrite Hpages in Hn; discriminate. }
  destruct (drawSectionHeader lib fontBold useUnicode (lit "Disclaimer") st1)
    as [r st2]; cbn [fst snd] in *; subst r.
  assert (Hdis : d = lit "Disclaimer").
  { unfold drawnAs in Has.
    rewrite (processText_id useUnicode (lit "Disclaimer") eq_refl) in Has.
    destruct Has as [-> | ->]; reflexivity. }
  subst d.
  destruct (drawLines_drawn lib margin bodySize font
              (wrapText useUnicode text (maxTextWidth lib) font bodySize) st2)
    as [drawn [H1 [H2 [_ H4]]]].
  pose proof (forEach_throw
                (fun e => exists n, addPage lib n = Some e)
                (drawLine lib margin bodySize font)
                (fun a s e => drawLine_throw lib Hglyphs margin bodySize font a s e)
                (wrapText useUnicode text (maxTextWidth lib) font bodySize) st2)
    as Hthrow2.
  unfold drawWrapped in *.
  destruct (forEach (drawLine lib margin bodySize font) _ st2) as [[[]|e] st3];
    cbn [fst snd] in *.
  2:{ destruct (Hthrow2 e eq_refl) as [n Hn]; rewrite Hpages in Hn; discriminate. }
  specialize (H4 eq_refl).
  exists (drawnTexts st1), drawn.
  split; [rewrite H1, Hd, <- app_assoc; reflexivity |].
  rewrite H4, firstn_all in H2.
  split; [|split; [exact H2 |]].
  - intros Hnil; subst drawn; cbn [length] in H4.
    apply (wrapText_nonempty useUnicode text (maxTextWidth lib) font bodySize Hword).
    destruct (wrapText useUnicode text (maxTextWidth lib) font bodySize);
      [reflexivity | discriminate].
  - intros Hu; subst text; subst useUnicode.
    apply drawnAs_printable; [|exact H2].
    apply Forall_forall; intros line Hline.
    exact (wrapText_printable _ _ _ _ _ Hline).
Qed.

(** The request without parameters ends with the header "Disclaimer" and
    the two lines of its disclaimer sentence. *)
Lemma disclaimer_drawn_last_witness :
  exists before drawn,
    drawnTexts (snd (render stdLib stdFont stdFontBold false (requestOf [])))
    = before ++ [lit "Disclaimer"] ++ drawn
    /\ drawn <> []
    /\ Forall2 drawnAs
               (wrapText false (pageDisclaimer false (requestOf []))
                         (maxTextWidth stdLib) stdFont bodySize)
               drawn
    /\ (false = false ->
        drawn
        = [lit "This PDF file is for testing purposes. Content is rendered directly";
           lit "from URL parameters."]).
Proof.
  refine (proj2 (proj2 (disclaimer_drawn_last stdLib stdFont stdFontBold false
                                              (requestOf []) _ _))).
  - intros n; reflexivity.
  - intros s opts Hs; cbn [drawText stdLib]; rewrite Hs; reflexivity.
Defined.

(** ** ensureSpace *)

(** X12: when the page can hold what is asked for, [ensureSpace] returns
    with that much room above the bottom margin or throws what [addPage]
    threw, leaving the layout as it was; it never adds more than one page. *)
Theorem ensureSpace_room (lib : PdfLib) (needed : Z) (st : LayoutState) :
  needed <= height lib - margin * 2 ->
  (fst (ensureSpace lib needed st) = Ok tt ->
   margin <= y (snd (ensureSpace lib needed st)) - needed)
  /\ (forall e,
         fst (ensureSpace lib needed st) = Throw e ->
         addPage lib (pageCount st) = Some e
         /\ snd (ensureSpace lib needed st) = st)
  /\ (pageCount st <= pageCount (snd (ensureSpace lib needed st))
      <= S (pageCount st))%nat.
Proof.
  intros Hfit; unfold ensureSpace, newPage, setY.
  destruct (y st - needed <? margin) eqn:Hlow.
  - destruct (addPage lib (pageCount st)) as [e0|]; cbn [fst snd y pageCount].
    + split; [discriminate |].
      split; [intros e He; inversion He; auto | lia].
    + split; [intros _; unfold margin in *; lia |].
      split; [discriminate | lia].
  - apply Z.ltb_ge in Hlow; cbn [fst snd].
    split; [intros _; exact Hlow |].
    split; [discriminate | lia].
Qed.

(** On a Letter page, room for a title is found at the bottom of a full
    page by opening the next one. *)
Lemma ensureSpace_room_witness :
  margin <= y (snd (ensureSpace stdLib (lineHeight * 2) (mkState 1 60 [])))
            - lineHeight * 2.
Proof.
  refine (proj1 (ensureSpace_room stdLib (lineHeight * 2) (mkState 1 60 []) _) _).
  - vm_compute; discriminate.
  - reflexivity.
Defined.

(** ** The parameters, continued *)

Lemma notReserved_keys (kv : jsstring * jsstring) :
  notReserved kv = true <-> fst kv <> lit "title" /\ fst kv <> lit "text".
Proof.
  unfold notReserved; rewrite andb_true_iff, !negb_true_iff.
  split; intros [H1 H2]; split.
  - intros Heq; apply str_eqb_eq in Heq; congruence.
  - intros Heq; apply str_eqb_eq in Heq; congruence.
  - destruct (str_eqb (fst kv) (lit "title")) eqn:E; [|reflexivity].
    apply str_eqb_eq in E; contradiction.
  - destruct (str_eqb (fst kv) (lit "text")) eqn:E; [|reflexivity].
    apply str_eqb_eq in E; contradiction.
Qed.

(** X13: the section "Extra information" lists at most fifty entries,
    never one whose key is title or text, and always entries of the query in
    query order: they are the first entries that are not reserved, all of
    them when there are fifty or fewer.  A line is the whole key, " = " and
    the value cut to 500 code units. *)
Theorem extraParams_facts (ps : list (jsstring * jsstring)) :
  (length (extraParams ps) <= MAX_PARAMS)%nat
  /\ (forall kv,
         In kv (extraParams ps) ->
         In kv ps /\ fst kv <> lit "title" /\ fst kv <> lit "text")
  /\ (exists rest, filter notReserved ps = extraParams ps ++ rest)
  /\ ((length (filter notReserved ps) <= MAX_PARAMS)%nat ->
      extraParams ps = filter notReserved ps)
  /\ (forall kv,
         length (paramLine kv)
         = (length (fst kv) + 3 + Nat.min MAX_VALUE_LEN (length (snd kv)))%nat).
Proof.
  unfold extraParams.
  split; [rewrite length_firstn; lia |].
  split.
  { intros kv Hin.
    assert (Hf : In kv (filter notReserved ps)).
    { rewrite <- (firstn_skipn MAX_PARAMS (filter notReserved ps)).
      apply in_or_app; left; exact Hin. }
    apply filter_In in Hf as [Hps Hnr].
    split; [exact Hps | apply notReserved_keys; exact Hnr]. }
  split.
  { exists (skipn MAX_PARAMS (filter notReserved ps)).
    symmetry; apply firstn_skipn. }
  split; [intros Hlen; apply firstn_all2; exact Hlen |].
  intros kv; unfold paramLine, slice0.
  rewrite !length_app, length_firstn.
  change (length (lit " = ")) with 3%nat; lia.
Qed.

(** ** The example URL *)

Lemma dropFinalSlash_cons (c : N) (rest : jsstring) :
  rest <> [] -> dropFinalSlash (c :: rest) = c :: dropFinalSlash rest.
Proof. destruct rest; [contradiction | reflexivity]. Qed.

(** X14: the origin of the example URL loses one final slash and nothing
    else: a string that ends with a slash comes back without it, any other
    string comes back unchanged. *)
Theorem dropFinalSlash_facts (s : jsstring) :
  dropFinalSlash (s ++ [0x2F%N]) = s
  /\ (forall c, c <> 0x2F%N -> dropFinalSlash (s ++ [c]) = s ++ [c])
  /\ dropFinalSlash [] = [].
Proof.
  split; [|split; [|reflexivity]].
  - induction s as [|a s IH]; [reflexivity |].
    cbn [app]; rewrite dropFinalSlash_cons, IH; [reflexivity |].
    destruct s; discriminate.
  - intros c Hc; induction s as [|a s IH].
    + cbn [app dropFinalSlash].
      destruct (N.eqb c 0x2F) eqn:E; [apply N.eqb_eq in E; contradiction |].
      reflexivity.
    + cbn [app]; rewrite dropFinalSlash_cons, IH; [reflexivity |].
      destruct s; discriminate.
Qed.

(** ** The title, continued *)

(** X15: the title of a request with parameters is never empty, before
    and after processing; when no entry has the key title it is "PDF", which
    is the text of the page's first call and the first text drawn: the first
    text, if any is drawn, and a text that is drawn when no page allocation
    fails and the library draws printable ASCII. *)
Theorem title_never_empty (req : Request) :
  params req <> [] ->
  titleParam (params req) <> []
  /\ (forall useUnicode, processText useUnicode (titleParam (params req)) <> [])
  /\ (searchGet (lit "title") (params req) = None ->
      titleParam (params req) = lit "PDF"
      /\ (forall useUnicode,
             exists rest, pageCalls useUnicode req = DrawTitle (lit "PDF") :: rest)
      /\ (forall lib font fontBold t0,
             hd_error (drawnTexts (snd (render lib font fontBold false req)))
             = Some t0 ->
             t0 = lit "PDF")
      /\ (forall lib font fontBold,
             (forall n, addPage lib n = None) ->
             (forall s opts, forallb printable s = true ->
                             drawText lib s opts = None) ->
             hd_error (drawnTexts (snd (render lib font fontBold false req)))
             = Some (lit "PDF")))
  /\ (forall lib font fontBold,
         (forall n, addPage lib n = None) ->
         (forall s opts, forallb printable s = true -> drawText lib s opts = None) ->
         exists t0,
           hd_error (drawnTexts (snd (render lib font fontBold false req)))
           = Some t0
           /\ t0 = processText false (titleParam (params req))
           /\ t0 <> []).
Proof.
  intros Hps.
  assert (Hne : titleParam (params req) <> []).
  { unfold titleParam.
    destruct (searchGet (lit "title") (params req)) as [[|c v]|]; discriminate. }
  assert (Hproc : forall u, processText u (titleParam (params req)) <> []).
  { intros u Hnil.
    pose proof (processText_length_aux u (titleParam (params req))) as Hlen.
    rewrite Hnil in Hlen; cbn [length] in Hlen.
    destruct (titleParam (params req)); [contradiction | cbn in Hlen; lia]. }
  split; [exact Hne |].
  split; [exact Hproc |].
  split.
  - intros Hnone.
    assert (Htitle : titleParam (params req) = lit "PDF")
      by (unfold titleParam; rewrite Hnone; reflexivity).
    split; [exact Htitle |].
    split.
    { intros u; destruct (pageCalls_title u req Hps) as [rest Hc].
      exists rest; rewrite Hc, Htitle; reflexivity. }
    split.
    + intros lib font fontBold t0 H.
      apply (proj1 (render_title lib font fontBold req Hps)) in H.
      rewrite H, Htitle; reflexivity.
    + intros lib font fontBold Hpages Hglyphs.
      rewrite (proj2 (render_title lib font fontBold req Hps) Hpages Hglyphs).
      rewrite Htitle; reflexivity.
  - intros lib font fontBold Hpages Hglyphs.
    exists (processText false (titleParam (params req))).
    split; [|split; [reflexivity | apply Hproc]].
    exact (proj2 (render_title lib font fontBold req Hps) Hpages Hglyphs).
Qed.

(** The request [?count=3] has no title: "PDF" is the first text drawn. *)
Lemma title_never_empty_witness :
  hd_error (drawnTexts (snd (render stdLib stdFont stdFontBold false
                                    (requestOf [(lit "count", lit "3")]))))
  = Some (lit "PDF").
Proof.
  refine (proj2 (proj2 (proj2 (proj1 (proj2 (proj2
            (title_never_empty (requestOf [(lit "count", lit "3")]) _)))
            eq_refl)))
            stdLib stdFont stdFontBold _ _).
  - discriminate.
  - intros n; reflexivity.
  - intros s opts Hs; cbn [drawText stdLib]; rewrite Hs; reflexivity.
Defined.

(** ** The hard split *)

Lemma splitRuns_single (s : jsstring) :
  existsb isSpace s = false -> splitRuns false s = [s].
Proof.
  induction s as [|c rest IH]; intros H; [reflexivity |].
  cbn [existsb] in H; apply orb_false_iff in H as [Hc Hrest].
  cbn [splitRuns]; rewrite Hc, (IH Hrest); reflexivity.
Qed.

(** X16: a text without white space is never changed by wrapping: the
    lines of [wrapText], whether the text fits or is cut by the hard split,
    are consecutive pieces of the processed text, which is their
    concatenation. *)
Theorem wrapText_token_pieces (useUnicode : bool) (text : jsstring)
        (maxWidth : Q) (fnt : Font) (size : Z) :
  existsb isSpace (processText useUnicode text) = false ->
  concat (wrapText useUnicode text maxWidth fnt size)
  = processText useUnicode text.
Proof.
  intros Hns; unfold wrapText, splitWhitespace.
  rewrite (splitRuns_single _ Hns), wrapWords_cons.
  cbn [truthy pushIf].
  destruct (fits fnt size maxWidth (processText useUnicode text)).
  - cbn [wrapWords]; rewrite pushIf_concat; reflexivity.
  - cbn [wrapWords]; rewrite pushIf_concat.
    rewrite (hardSplit_concat fnt size maxWidth
               (codePoints (processText useUnicode text)) [] []).
    cbn [concat app]; apply codePoints_concat.
Qed.

(** The token of twenty-six letters is cut into three lines that join
    back into it. *)
Lemma wrapText_token_pieces_witness :
  concat (wrapText false (lit "abcdefghijklmnopqrstuvwxyz") (80 # 1) monoFont 12)
  = lit "abcdefghijklmnopqrstuvwxyz".
Proof.
  apply (wrapText_token_pieces false (lit "abcdefghijklmnopqrstuvwxyz")
                               (80 # 1) monoFont 12).
  reflexivity.
Defined.

(** ** The beginning of a line *)

Lemma splitRuns_nonspace (s : jsstring) :
  forall inRun,
    Forall (Forall (fun c => isSpace c = false)) (splitRuns inRun s).
Proof.
  induction s as [|c rest IH]; intros inRun; [repeat constructor |].
  cbn [splitRuns]; destruct (isSpace c) eqn:Hc.
  - destruct inRun; [apply IH | constructor; [constructor | apply IH]].
  - specialize (IH false).
    destruct (splitRuns false rest) as [|w ws]; [repeat constructor; exact Hc |].
    apply Forall_cons_iff in IH as [Hw Hws].
    constructor; [constructor; assumption | exact Hws].
Qed.

Lemma startsWithWord_app (a b : jsstring) :
  startsWithWord a -> (a = [] -> startsWithWord b) -> startsWithWord (a ++ b).
Proof. destruct a; cbn; auto. Qed.

Lemma startsWithWord_nonspace (w : jsstring) :
  Forall (fun c => isSpace c = false) w -> startsWithWord w.
Proof. intros H; destruct w; [exact I | inversion H; assumption]. Qed.

Section LineStart.
Variables (fnt : Font) (size : Z) (maxWidth : Q).

Lemma pushIf_starts (lines : list jsstring) (s : jsstring) :
  Forall startsWithWord lines -> startsWithWord s ->
  Forall startsWithWord (pushIf lines s).
Proof.
  intros Hl Hs; unfold pushIf; destruct (truthy s); [|exact Hl].
  apply Forall_app; split; [exact Hl | repeat constructor; exact Hs].
Qed.

Lemma hardSplit_starts (chs : list jsstring) :
  forall lines chunk,
    Forall startsWithWord chs -> Forall startsWithWord lines ->
    startsWithWord chunk ->
    Forall startsWithWord (fst (hardSplit fnt size maxWidth chs lines chunk))
    /\ startsWithWord (snd (hardSplit fnt size maxWidth chs lines chunk)).
Proof.
  induction chs as [|ch rest IH]; intros lines chunk Hchs Hl Hc;
    cbn [hardSplit]; [split; assumption |].
  apply Forall_cons_iff in Hchs as [Hch Hrest].
  destruct (fits fnt size maxWidth (chunk ++ ch)); apply IH; auto.
  - apply startsWithWord_app; auto.
  - apply pushIf_starts; assumption.
Qed.

Lemma wrapWords_starts (words : list jsstring) :
  forall lines current,
    Forall (Forall (fun c => isSpace c = false)) words ->
    Forall startsWithWord lines -> startsWithWord current ->
    Forall startsWithWord (wrapWords fnt size maxWidth words lines current).
Proof.
  induction words as [|w rest IH]; intros lines current Hw Hl Hc.
  - apply pushIf_starts; assumption.
  - apply Forall_cons_iff in Hw as [Hw Hrest]; rewrite wrapWords_cons.
    destruct (fits fnt size maxWidth _).
    + apply IH; auto.
      destruct (truthy current) eqn:Ht;
        [|apply startsWithWord_nonspace; exact Hw].
      apply startsWithWord_app; [exact Hc |].
      intros ->; discriminate.
    + destruct (hardSplit_starts (codePoints w) (pushIf lines current) [])
        as [H1 H2]; auto using pushIf_starts.
      * eapply Forall_impl; [apply startsWithWord_nonspace |].
        apply (codePoints_chars (fun c => isSpace c = false)); exact Hw.
      * exact I.
Qed.
End LineStart.

(** X17: no line of [wrapText] begins with white space: leading white
    space of the text is dropped and a line break swallows the white space it
    replaces. *)
Theorem wrapText_line_start (useUnicode : bool) (text : jsstring)
        (maxWidth : Q) (fnt : Font) (size : Z) :
  forall line,
    In line (wrapText useUnicode text maxWidth fnt size) ->
    exists c rest, line = c :: rest /\ isSpace c = false.
Proof.
  intros line Hin.
  pose proof (wrapWords_starts fnt size maxWidth
                (splitWhitespace (processText useUnicode text)) [] []
                (splitRuns_nonspace _ false) (Forall_nil _) I) as Hs.
  rewrite Forall_forall in Hs; specialize (Hs line Hin).
  apply wrapText_lines_truthy in Hin.
  destruct line as [|c rest]; [discriminate |].
  exists c, rest; split; [reflexivity | exact Hs].
Qed.

(** The second line of " hello  world" at width 40 is "world". *)
Lemma wrapText_line_start_witness :
  exists c rest, lit "world" = c :: rest /\ isSpace c = false.
Proof.
  apply (wrapText_line_start false (lit " hello  world") (40 # 1) monoFont 12).
  vm_compute; tauto.
Defined.

(** ** The lines of the parameters *)

(** X18: every listed parameter is drawn, even one with an empty key and
    an empty value: its text is wrapped into at least one line, and its
    equals sign is on one of the lines. *)
Theorem paramLine_drawn (useUnicode : bool) (kv : jsstring * jsstring)
        (maxWidth : Q) (fnt : Font) (size : Z) :
  wrapText useUnicode (paramLine kv) maxWidth fnt size <> []
  /\ exists line,
      In line (wrapText useUnicode (paramLine kv) maxWidth fnt size)
      /\ In 0x3D%N line.
Proof.
  split; [apply wrapText_nonempty, hasWord_paramLine |].
  assert (Heq : In 0x3D%N
                   (filter nonSpace
                           (concat (wrapText useUnicode (paramLine kv)
                                             maxWidth fnt size)))).
  { rewrite wrapText_content_aux.
    apply filter_In; split; [|reflexivity].
    unfold paramLine, processText.
    assert (Ht : truthy (fst kv ++ lit " = " ++ slice0 MAX_VALUE_LEN (snd kv)) = true)
      by (destruct (fst kv); reflexivity).
    rewrite Ht; cbn [negb].
    destruct useUnicode.
    - apply in_or_app; right; right; left; reflexivity.
    - rewrite !flat_map_app; apply in_or_app; right.
      apply in_or_app; left; right; left; reflexivity. }
  apply filter_In in Heq as [Heq _].
  apply in_concat in Heq as [line [Hline Hc]].
  exists line; split; assumption.
Qed.

(** ** The note, continued *)

(** X19: when the keys title and text each occur at most once in the
    query, the note about the first fifty parameters is drawn exactly when
    more than fifty entries are non-reserved, that is exactly when some of
    them are left out of the list. *)
Theorem note_when_keys_unrepeated (ps : list (jsstring * jsstring)) :
  (length (filter (fun kv => str_eqb (fst kv) (lit "title")) ps) <= 1)%nat ->
  (length (filter (fun kv => str_eqb (fst kv) (lit "text")) ps) <= 1)%nat ->
  (noteCalls ps = [DrawWrapped noteText; MoveY lineHeight]
   <-> (MAX_PARAMS < length (filter notReserved ps))%nat)
  /\ (noteCalls ps = [] <-> extraParams ps = filter notReserved ps).
Proof.
  intros Ht Hx.
  pose proof (noteCondition_unrepeated ps Ht Hx) as Hnote.
  assert (Hall : extraParams ps = filter notReserved ps
                 <-> (length (filter notReserved ps) <= MAX_PARAMS)%nat).
  { unfold extraParams; split.
    - intros H; rewrite <- H, length_firstn; lia.
    - apply firstn_all2. }
  unfold noteCalls; destruct (noteCondition ps).
  - assert (Hgt : (MAX_PARAMS < length (filter notReserved ps))%nat)
      by (apply Hnote; reflexivity).
    split; [tauto |].
    split; [discriminate | intros H; apply Hall in H; lia].
  - assert (Hle : ~ (MAX_PARAMS < length (filter notReserved ps))%nat)
      by (intros H; apply Hnote in H; discriminate).
    split; [split; [discriminate | contradiction] |].
    split; [intros _; apply Hall; lia | reflexivity].
Qed.

(** The query [?title=a] followed by fifty-one entries [k=1] draws the
    note. *)
Lemma note_when_keys_unrepeated_witness :
  noteCalls paramsFiftyOne = [DrawWrapped noteText; MoveY lineHeight]
  <-> (MAX_PARAMS < length (filter notReserved paramsFiftyOne))%nat.
Proof.
  refine (proj1 (note_when_keys_unrepeated paramsFiftyOne _ _));
    vm_compute; repeat constructor.
Defined.

(* ================================================================== *)
(** * Part IV: what a request draws                                    *)
(* ================================================================== *)

(** ** The texts of a page when nothing fails *)

Section ExactDrawing.
Variables (lib : PdfLib) (font fontBold : Font).
Hypothesis pages : forall n, addPage lib n = None.
Hypothesis glyphs :
  forall s opts, forallb printable s = true -> drawText lib s opts = None.

Lemma drawLine_exact x size fnt line st :
  forallb printable line = true ->
  fst (drawLine lib x size fnt line st) = Ok tt
  /\ drawnTexts (snd (drawLine lib x size fnt line st)) = drawnTexts st ++ [line].
Proof.
  intros Hl.
  destruct (drawLine_drawn lib x size fnt line st)
    as [[Hok [d [Hd Has]]] | [e [He _]]].
  - split; [exact Hok |]; rewrite Hd.
    destruct Has as [-> | ->]; [reflexivity |].
    rewrite (asciiFallback_id _ Hl); reflexivity.
  - apply (drawLine_throw lib glyphs) in He as [n Hn].
    rewrite pages in Hn; discriminate.
Qed.

Lemma drawLines_exact x size fnt (lines : list jsstring) :
  forall st,
    Forall (fun l => forallb printable l = true) lines ->
    fst (forEach (drawLine lib x size fnt) lines st) = Ok tt
    /\ drawnTexts (snd (forEach (drawLine lib x size fnt) lines st))
       = drawnTexts st ++ lines.
Proof.
  induction lines as [|line rest IH]; intros st Hp.
  - cbn [forEach ret fst snd]; rewrite app_nil_r; auto.
  - apply Forall_cons_iff in Hp as [Hl Hrest].
    cbn [forEach]; unfold bind.
    destruct (drawLine_exact x size fnt line st Hl) as [Hok Hd].
    destruct (drawLine lib x size fnt line st) as [r st1]; cbn [fst snd] in *.
    subst r; destruct (IH st1 Hrest) as [Hok' Hd'].
    split; [exact Hok' |].
    rewrite Hd', Hd, <- app_assoc; reflexivity.
Qed.

Lemma drawSectionHeader_exact text st :
  fst (drawSectionHeader lib fontBold false text st) = Ok tt
  /\ drawnTexts (snd (drawSectionHeader lib fontBold false text st))
     = drawnTexts st ++ [processText false text].
Proof.
  destruct (drawSectionHeader_drawn lib fontBold false text st)
    as [[Hok [d [Hd Has]]] | [e [He _]]].
  - split; [exact Hok |]; rewrite Hd.
    destruct Has as [-> | ->]; [reflexivity |].
    rewrite (asciiFallback_id _ (processText_printable text)); reflexivity.
  - apply (drawSectionHeader_throw lib fontBold false glyphs) in He as [n Hn].
    rewrite pages in Hn; discriminate.
Qed.

Lemma drawTitle_exact text st :
  fst (drawTitle lib fontBold false text st) = Ok tt
  /\ drawnTexts (snd (drawTitle lib fontBold false text st))
     = drawnTexts st ++ [processText false text].
Proof.
  pose proof (processText_printable text) as Hp.
  unfold drawTitle, bind, tryCatch, ensureSpace, newPage, moveY, setY,
    pageDrawText.
  destruct (y st - lineHeight * 2 <? margin); rewrite ?pages;
    cbn [fst snd y pageCount]; rewrite (glyphs _ _ Hp); cbn [fst snd];
    (split; [reflexivity |]); unfold drawnTexts; cbn [log rev];
    rewrite ?flat_map_app; cbn [flat_map eventText app];
    rewrite ?app_nil_r, <- ?app_assoc; reflexivity.
Qed.

Lemma run_exact (calls : list Call) :
  forall st,
    fst (run lib font fontBold false calls st) = Ok tt
    /\ drawnTexts (snd (run lib font fontBold false calls st))
       = drawnTexts st ++ flat_map (callTexts lib font) calls.
Proof.
  unfold run; induction calls as [|c rest IH]; intros st.
  - cbn [forEach ret fst snd flat_map]; rewrite app_nil_r; auto.
  - cbn [forEach flat_map]; unfold bind.
    assert (Hc : fst (exec lib font fontBold false c st) = Ok tt
                 /\ drawnTexts (snd (exec lib font fontBold false c st))
                    = drawnTexts st ++ callTexts lib font c).
    { destruct c as [text | text | text | k]; cbn [exec callTexts].
      - apply drawTitle_exact.
      - apply drawSectionHeader_exact.
      - unfold drawWrapped; apply drawLines_exact.
        apply Forall_forall; intros line Hline.
        exact (wrapText_printable _ _ _ _ _ Hline).
      - unfold moveY, setY, drawnTexts; cbn [fst snd log rev].
        rewrite flat_map_app; cbn [flat_map eventText]; auto. }
    destruct Hc as [Hok Hd].
    destruct (exec lib font fontBold false c st) as [r st1]; cbn [fst snd] in *.
    subst r; destruct (IH st1) as [Hok' Hd'].
    split; [exact Hok' |].
    rewrite Hd', Hd, <- app_assoc; reflexivity.
Qed.

(** When no page allocation fails and the library draws printable ASCII,
    the handler's drawing returns normally and the texts drawn are those of
    the calls of the page, one after the other. *)
Lemma render_exact (req : Request) :
  fst (render lib font fontBold false req) = Ok tt
  /\ drawnTexts (snd (render lib font fontBold false req))
     = flat_map (callTexts lib font) (pageCalls false req).
Proof.
  unfold render.
  destruct (run_exact (pageCalls false req) (initialState lib)) as [Hok Hd].
  split; [exact Hok | exact Hd].
Qed.
End ExactDrawing.

Lemma searchGet_first (key v : jsstring) (pre post : list (jsstring * jsstring)) :
  (forall kv, In kv pre -> fst kv <> key) ->
  searchGet key (pre ++ (key, v) :: post) = Some v.
Proof.
  induction pre as [|[k w] pre IH]; intros Hpre; cbn [app searchGet].
  - rewrite (proj2 (str_eqb_eq key key) eq_refl); reflexivity.
  - destruct (str_eqb k key) eqn:E.
    + apply str_eqb_eq in E; exfalso.
      apply (Hpre (k, w)); [left; reflexivity | exact E].
    + apply IH; intros kv Hin; apply Hpre; right; exact Hin.
Qed.

Lemma flat_map_lines (lib : PdfLib) (font : Font)
      (es : list (jsstring * jsstring)) :
  flat_map (callTexts lib font) (map (fun kv => DrawWrapped (paramLine kv)) es)
  = flat_map (fun kv => wrapText false (paramLine kv) (maxTextWidth lib)
                                 font bodySize) es.
Proof.
  induction es as [|kv es IH]; [reflexivity |].
  cbn [map flat_map callTexts]; rewrite IH; reflexivity.
Qed.

(** The texts of the page that echoes the parameters. *)
Lemma echo_drawn (lib : PdfLib) (font fontBold : Font) (req : Request) :
  (forall n, addPage lib n = None) ->
  (forall s opts, forallb printable s = true -> drawText lib s opts = None) ->
  params req <> [] ->
  fst (render lib font fontBold false req) = Ok tt
  /\ drawnTexts (snd (render lib font fontBold false req))
     = [processText false (titleParam (params req))]
       ++ match textParam (params req) with
          | Some v =>
              if truthy v
              then wrapText false (slice0 MAX_VALUE_LEN v) (maxTextWidth lib)
                            font bodySize
              else []
          | None => []
          end
       ++ match firstn MAX_PARAMS (filter notReserved (params req)) with
          | [] => []
          | kv :: es =>
              [lit "Extra information"]
              ++ (if noteCondition (params req)
                  then wrapText false noteText (maxTextWidth lib) font bodySize
                  else [])
              ++ flat_map (fun kv => wrapText false (paramLine kv)
                                              (maxTextWidth lib) font bodySize)
                          (kv :: es)
          end
       ++ [lit "Disclaimer"]
       ++ wrapText false (disclaimerText false) (maxTextWidth lib) font bodySize.
Proof.
  intros Hpages Hglyphs Hps.
  destruct (render_exact lib font fontBold Hpages Hglyphs req) as [Hok Hd].
  split; [exact Hok |].
  rewrite Hd, (pageCalls_echo false req Hps), !flat_map_app.
  f_equal; f_equal; [|f_equal].
  - unfold textCalls.
    destruct (textParam (params req)) as [v|]; [|reflexivity].
    destruct (truthy v); [|reflexivity].
    cbn [flat_map callTexts]; rewrite !app_nil_r; reflexivity.
  - unfold extraCalls, extraParams, noteCalls.
    destruct (firstn MAX_PARAMS (filter notReserved (params req))) as [|kv es];
      [reflexivity |].
    rewrite !flat_map_app, flat_map_lines.
    change (flat_map (callTexts lib font)
                     [DrawSectionHeader (lit "Extra information")])
      with [lit "Extra information"].
    change (flat_map (callTexts lib font) [MoveY lineHeight]) with (@nil jsstring).
    rewrite app_nil_r; f_equal; f_equal.
    destruct (noteCondition (params req)); [|reflexivity].
    cbn [flat_map callTexts]; rewrite !app_nil_r; reflexivity.
  - cbn [flat_map callTexts]; rewrite app_nil_r; reflexivity.
Qed.

(** ** The parameters and what is drawn for them *)

(** C6, amended: the title and the text are the values of the first
    entries with those keys; the section "Extra information" has the lines
    of every entry, repeated keys included, among the first fifty entries
    whose key is neither title nor text, in query order.  When no page
    allocation fails and the library draws printable ASCII, the texts drawn
    are the title, the wrapped text, the header of the section with its note
    and the wrapped line of each of those entries, one entry after the
    other and at least one line each, and the disclaimer. *)
Theorem repeated_keys_listed (lib : PdfLib) (font fontBold : Font)
        (req : Request) :
  (forall n, addPage lib n = None) ->
  (forall s opts, forallb printable s = true -> drawText lib s opts = None) ->
  params req <> [] ->
  (forall pre v post,
      params req = pre ++ (lit "title", v) :: post ->
      (forall kv, In kv pre -> fst kv <> lit "title") ->
      titleParam (params req) = (if truthy v then v else lit "PDF"))
  /\ (forall pre v post,
         params req = pre ++ (lit "text", v) :: post ->
         (forall kv, In kv pre -> fst kv <> lit "text") ->
         textParam (params req) = Some v)
  /\ fst (render lib font fontBold false req) = Ok tt
  /\ drawnTexts (snd (render lib font fontBold false req))
     = [processText false (titleParam (params req))]
       ++ match textParam (params req) with
          | Some v =>
              if truthy v
              then wrapText false (slice0 MAX_VALUE_LEN v) (maxTextWidth lib)
                            font bodySize
              else []
          | None => []
          end
       ++ match firstn MAX_PARAMS (filter notReserved (params req)) with
          | [] => []
          | kv :: es =>
              [lit "Extra information"]
              ++ (if noteCondition (params req)
                  then wrapText false noteText (maxTextWidth lib) font bodySize
                  else [])
              ++ flat_map (fun kv => wrapText false (paramLine kv)
                                              (maxTextWidth lib) font bodySize)
                          (kv :: es)
          end
       ++ [lit "Disclaimer"]
       ++ wrapText false (disclaimerText false) (maxTextWidth lib) font bodySize
  /\ (forall kv,
         In kv (firstn MAX_PARAMS (filter notReserved (params req))) ->
         wrapText false (paramLine kv) (maxTextWidth lib) font bodySize <> []).
Proof.
  intros Hpages Hglyphs Hps.
  split; [|split].
  - intros pre v post Hsplit Hpre; unfold titleParam.
    rewrite Hsplit, (searchGet_first _ v pre post Hpre); reflexivity.
  - intros pre v post Hsplit Hpre; unfold textParam.
    rewrite Hsplit; apply searchGet_first; exact Hpre.
  - destruct (echo_drawn lib font fontBold req Hpages Hglyphs Hps) as [Hok Hd].
    split; [exact Hok | split; [exact Hd |]].
    intros kv _; apply wrapText_nonempty, hasWord_paramLine.
Qed.

(** The query [?title=A&a=1&title=B&text=one&a=2&text=two] is drawn with
    the first title and the first text, and with a line for each of the two
    entries of the key a. *)
Lemma repeated_keys_listed_witness :
  drawnTexts (snd (render stdLib stdFont stdFontBold false (requestOf paramsMixed)))
  = [lit "A"; lit "one"; lit "Extra information"; lit "a = 1"; lit "a = 2";
     lit "Disclaimer";
     lit "Unicode characters are transliterated. Content is rendered from URL";
     lit "parameters."].
Proof.
  refine (proj1 (proj2 (proj2 (proj2
            (repeated_keys_listed stdLib stdFont stdFontBold
                                  (requestOf paramsMixed) _ _ _))))).
  - intros n; reflexivity.
  - intros s opts Hs; cbn [drawText stdLib]; rewrite Hs; reflexivity.
  - discriminate.
Defined.

(** C7: when the text parameter has more than 500 characters, the
    paragraph under the title is its first 500 characters: the call that
    follows the title is given that prefix, which is processed only inside
    [wrapText]; when no page allocation fails and the library draws
    printable ASCII, the texts drawn right after the title are the wrapped
    lines of the prefix, and those lines, white space apart, have the
    content of the processed prefix, no more and no less. *)
Theorem long_text_truncated (useUnicode : bool) (req : Request) (v : jsstring) :
  textParam (params req) = Some v ->
  (MAX_VALUE_LEN < length v)%nat ->
  (exists rest,
      pageCalls useUnicode req
      = DrawTitle (titleParam (params req))
        :: DrawWrapped (firstn 500 v) :: MoveY lineHeight :: rest)
  /\ length (firstn 500 v) = 500%nat
  /\ (forall lib font fontBold,
         exec lib font fontBold useUnicode (DrawWrapped (firstn 500 v))
         = forEach (drawLine lib margin bodySize font)
                   (wrapText useUnicode (firstn 500 v) (maxTextWidth lib)
                             font bodySize))
  /\ (forall lib font fontBold,
         (forall n, addPage lib n = None) ->
         (forall s opts, forallb printable s = true ->
                         drawText lib s opts = None) ->
         fst (render lib font fontBold false req) = Ok tt
         /\ exists rest,
             drawnTexts (snd (render lib font fontBold false req))
             = processText false (titleParam (params req))
               :: wrapText false (firstn 500 v) (maxTextWidth lib) font bodySize
               ++ rest)
  /\ (forall maxWidth fnt size,
         filter nonSpace
                (concat (wrapText useUnicode (firstn 500 v) maxWidth fnt size))
         = filter nonSpace (processText useUnicode (firstn 500 v))).
Proof.
  intros Htext Hlen.
  pose proof (searchGet_some_params _ _ _ Htext) as Hps.
  unfold MAX_VALUE_LEN in Hlen.
  assert (Htruthy : truthy v = true)
    by (destruct v; [cbn in Hlen; lia | reflexivity]).
  split; [|split; [|split; [|split]]].
  - rewrite (pageCalls_echo useUnicode req Hps).
    unfold textCalls; rewrite Htext, Htruthy.
    cbn [app]; eexists; reflexivity.
  - apply firstn_length_le; lia.
  - reflexivity.
  - intros lib font fontBold Hpages Hglyphs.
    destruct (echo_drawn lib font fontBold req Hpages Hglyphs Hps) as [Hok Hd].
    split; [exact Hok |].
    rewrite Htext, Htruthy in Hd.
    eexists; rewrite Hd; cbn [app]; unfold slice0, MAX_VALUE_LEN.
    reflexivity.
  - intros maxWidth fnt size; apply wrapText_content_aux.
Qed.

(** The request [?text=xx...x] with 501 letters: after the title "PDF"
    the lines drawn are the wrapped lines of the first 500 letters. *)
Lemma long_text_truncated_witness :
  exists rest,
    drawnTexts (snd (render stdLib stdFont stdFontBold false
                            (requestOf [(lit "text", longValue)])))
    = lit "PDF"
      :: wrapText false (firstn 500 longValue) (maxTextWidth stdLib)
                  stdFont bodySize
      ++ rest.
Proof.
  refine (proj2 (proj1 (proj2 (proj2 (proj2
            (long_text_truncated false (requestOf [(lit "text", longValue)])
                                 longValue eq_refl _))))
            stdLib stdFont stdFontBold _ _)).
  - vm_compute; repeat constructor.
  - intros n; reflexivity.
  - intros s opts Hs; cbn [drawText stdLib]; rewrite Hs; reflexivity.
Defined.
